(** * Contract PDF extraction service (src/app.py), shallow embedding

    The Flask handler [process_contract] and the helper
    [extract_text_from_pdf] of src/app.py, written as functions in a small
    state-and-error monad.  The state holds the [contracts] table of the
    store and the trace of external effects (store lookups and writes,
    PDF downloads, OCR invocations, sleeps).  External collaborators
    (HTTP download plus PyMuPDF parsing, Tesseract, the clock, the store's
    availability) are oracles collected in [env]. *)

From Stdlib Require Import String Ascii List ZArith NArith Bool Lia Arith.
Import ListNotations.
Open Scope string_scope.

(** ** Python values read from the trigger payload and the store *)

Inductive pyval : Type :=
| VNone
| VBool (b : bool)
| VInt (z : Z)
| VStr (s : string).

Definition pyval_eq_dec (x y : pyval) : {x = y} + {x <> y}.
Proof. decide equality; auto using bool_dec, Z.eq_dec, string_dec. Defined.

(** Python truthiness ([if v:] / [if not v:]). *)
Definition truthy (v : pyval) : bool :=
  match v with
  | VNone => false
  | VBool b => b
  | VInt z => negb (Z.eqb z 0)
  | VStr s => negb (String.eqb s "")
  end.

(** [v != "processing"] in Python: only the string itself is equal. *)
Definition ne_processing (v : pyval) : bool :=
  match v with
  | VStr s => negb (String.eqb s "processing")
  | _ => true
  end.

(** ** Strings: [str.strip()], [len], and decimal rendering of page numbers

    A Python [str] is held as its UTF-8 encoding in a Rocq [string] (a
    sequence of bytes).  Concatenation of [str] values is concatenation of
    their encodings, so f-strings and [+=] are [++] on the bytes; the
    character-level operations [len] and [str.strip()] work on the code
    points, obtained by [utf8_decode]. *)

(** The code points of a UTF-8 byte string (1- to 4-byte sequences; on
    well-formed input this is exact, which is all the program produces). *)
Fixpoint utf8_decode (s : string) : list N :=
  match s with
  | EmptyString => []
  | String a r =>
      let b0 := N_of_ascii a in
      if (b0 <? 128)%N then b0 :: utf8_decode r
      else if (b0 <? 192)%N then b0 :: utf8_decode r
      else if (b0 <? 224)%N then
        match r with
        | String a1 r1 =>
            ((b0 - 192) * 64 + (N_of_ascii a1 - 128))%N :: utf8_decode r1
        | EmptyString => [b0]
        end
      else if (b0 <? 240)%N then
        match r with
        | String a1 (String a2 r2) =>
            ((b0 - 224) * 4096 + (N_of_ascii a1 - 128) * 64
             + (N_of_ascii a2 - 128))%N :: utf8_decode r2
        | _ => [b0]
        end
      else
        match r with
        | String a1 (String a2 (String a3 r3)) =>
            ((b0 - 240) * 262144 + (N_of_ascii a1 - 128) * 4096
             + (N_of_ascii a2 - 128) * 64 + (N_of_ascii a3 - 128))%N
            :: utf8_decode r3
        | _ => [b0]
        end
  end.

(** [len(s)]: the number of code points. *)
Definition py_len (s : string) : nat := length (utf8_decode s).

(** The code points for which Python's [str.isspace()] holds, i.e. those
    [str.strip()] removes: U+0009..U+000D, U+001C..U+0020, U+0085, U+00A0,
    U+1680, U+2000..U+200A, U+2028, U+2029, U+202F, U+205F, U+3000. *)
Definition py_isspace (n : N) : bool :=
  (((9 <=? n) && (n <=? 13)) || ((28 <=? n) && (n <=? 32))
   || (n =? 133) || (n =? 160) || (n =? 5760)
   || ((8192 <=? n) && (n <=? 8202))
   || (n =? 8232) || (n =? 8233) || (n =? 8239) || (n =? 8287)
   || (n =? 12288))%N.

Fixpoint lstrip (s : list N) : list N :=
  match s with
  | [] => []
  | c :: s' => if py_isspace c then lstrip s' else s
  end.

Definition rstrip (s : list N) : list N := rev (lstrip (rev s)).

(** [s.strip()] on the code points of [s]. *)
Definition strip (s : list N) : list N := rstrip (lstrip s).

Definition digit (n : nat) : ascii := ascii_of_nat (48 + n)%nat.

Fixpoint digits_aux (fuel n : nat) (acc : string) : string :=
  match fuel with
  | O => acc
  | S f =>
      let acc' := String (digit (n mod 10)%nat) acc in
      if (n <? 10)%nat then acc' else digits_aux f (n / 10)%nat acc'
  end.

(** [f"{n}"] for a natural number. *)
Definition str_of_nat (n : nat) : string := digits_aux (S n) n EmptyString.

(** ** Store, effects and oracles *)

(** A row of the [contracts] table, as far as the service reads or writes it. *)
Record contract : Type := mkContract {
  c_id : pyval;
  storage_path : pyval;
  upload_status : pyval;
  raw_text : option string;   (* nullable column *)
  processed_at : option string
}.

Inductive event : Type :=
| Lookup (id : pyval)            (* select('*').eq('id', id) *)
| Download (url : pyval)         (* requests.get + fitz.open *)
| OcrCall (page attempt : nat)   (* pytesseract.image_to_string *)
| Sleep (units : nat)            (* a delay between attempts *)
| Write (id : pyval).            (* update(...).eq('id', id) *)

Record state : Type := mkState {
  st_store : list contract;
  st_trace : list event
}.

Record env : Type := mkEnv {
  fetch : pyval -> option (list string);
    (* page.get_text() of each page, UTF-8 encoded;
       None: download, HTTP status or PDF parsing raised *)
  ocr : nat -> nat -> option string;
    (* page index, attempt number; None: OCR raised *)
  now : string;                      (* datetime.utcnow().isoformat() *)
  lookup_raises : bool;
  update_raises : bool
}.

Inductive res (A : Type) : Type :=
| Ok (a : A)
| Err (msg : string).
Arguments Ok {A} a.
Arguments Err {A} msg.

(** A state monad with exceptions: the state reached before an exception
    is kept, as Python's side effects are. *)
Definition M (A : Type) : Type := state -> state * res A.

Definition ret {A} (a : A) : M A := fun s => (s, Ok a).
Definition raise {A} (msg : string) : M A := fun s => (s, Err msg).
Definition bind {A B} (m : M A) (f : A -> M B) : M B :=
  fun s => match m s with
           | (s', Ok a) => f a s'
           | (s', Err e) => (s', Err e)
           end.
Definition emit (e : event) : M unit :=
  fun s => (mkState (st_store s) (st_trace s ++ [e]), Ok tt).
Definition get_store : M (list contract) := fun s => (s, Ok (st_store s)).
Definition put_store (db : list contract) : M unit :=
  fun s => (mkState db (st_trace s), Ok tt).

Notation "x <- m ;; k" := (bind m (fun x => k))
  (at level 61, m at next level, right associativity).
Notation "m ;;; k" := (bind m (fun _ => k))
  (at level 61, right associativity).

(** ** [extract_text_from_pdf] (src/app.py, lines 38-69) *)

Definition nl : string := String (ascii_of_nat 10) EmptyString.

(** [len(page_text.strip()) < 50]: the page "appears to be scanned". *)
Definition needs_ocr (page_text : string) : bool :=
  (length (strip (utf8_decode page_text)) <? 50)%nat.

Definition ocr_header (page_num : nat) : string :=
  nl ++ "--- Page " ++ str_of_nat (S page_num) ++ " (OCR) ---" ++ nl.

Definition page_header (page_num : nat) : string :=
  nl ++ "--- Page " ++ str_of_nat (S page_num) ++ " ---" ++ nl.

(** [page.get_pixmap()], [Image.open], [pytesseract.image_to_string(img)]:
    one call, no retry; an exception leaves the function. *)
Definition ocr_page (E : env) (page_num : nat) : M string :=
  emit (OcrCall page_num 1) ;;;
  match ocr E page_num 1 with
  | Some ocr_text => ret ocr_text
  | None => raise "OCR error"
  end.

(** The body of the [for page_num in range(len(doc))] loop, for a given
    OCR step: the text appended to [text] for that page. *)
Definition resolve_page_with (ocr_step : nat -> M string)
    (page_num : nat) (page_text : string) : M string :=
  if needs_ocr page_text then
    ocr_text <- ocr_step page_num ;;
    ret (ocr_header page_num ++ ocr_text)
  else ret (page_header page_num ++ page_text).

Fixpoint extract_pages_with (ocr_step : nat -> M string)
    (pages : list string) (page_num : nat) (text : string) : M string :=
  match pages with
  | [] => ret text
  | page_text :: rest =>
      blk <- resolve_page_with ocr_step page_num page_text ;;
      extract_pages_with ocr_step rest (S page_num) (text ++ blk)
  end.

Definition extract_pages (E : env) := extract_pages_with (ocr_page E).

Definition extract_text_from_pdf (E : env) (pdf_url : pyval) : M string :=
  emit (Download pdf_url) ;;;
  match fetch E pdf_url with
  | None => raise "Error extracting text from PDF"
  | Some doc => extract_pages E doc 0 ""
  end.

(** ** [process_contract] (src/app.py, lines 77-215), POST requests *)

(** The [contract_id] and [upload_status] taken from the payload
    (JSON body, then form data, then query parameters); [VNone] when the
    key is absent ([dict.get]). *)
Record trigger : Type := mkTrigger {
  t_contract_id : pyval;
  t_upload_status : pyval
}.

Inductive response : Type :=
| RMissingId                                    (* 400 contract_id is required *)
| RSkipWebhook (webhook : pyval)                (* 200 Skipped - webhook status *)
| RNotFound (id : pyval)                        (* 404 Contract not found *)
| RSkipDatabase (webhook db : pyval)            (* 200 Skipped - database status *)
| RNoStoragePath (id : pyval)                   (* 400 No storage_path found *)
| RSuccess (id : pyval) (text_length : nat) (webhook db : pyval) (* 200 *)
| RError (msg : string).                        (* 500 *)

Definition success (r : response) : bool :=
  match r with
  | RSkipWebhook _ | RSkipDatabase _ _ | RSuccess _ _ _ _ => true
  | _ => false
  end.

Definition http_status (r : response) : nat :=
  match r with
  | RMissingId | RNoStoragePath _ => 400
  | RNotFound _ => 404
  | RError _ => 500
  | _ => 200
  end.

(** [.eq('id', contract_id)] *)
Definition matches_id (id : pyval) (c : contract) : bool :=
  if pyval_eq_dec (c_id c) id then true else false.

(** [update(update_data).eq('id', contract_id)] on one row. *)
Definition apply_update (id : pyval) (text ts : string) (c : contract) : contract :=
  if matches_id id c then
    mkContract (c_id c) (storage_path c) (VStr "completed") (Some text) (Some ts)
  else c.

Definition process_body (E : env) (trg : trigger) : M response :=
  let contract_id := t_contract_id trg in
  let hint := t_upload_status trg in
  if negb (truthy contract_id) then ret RMissingId
  else if truthy hint && ne_processing hint then ret (RSkipWebhook hint)
  else
    emit (Lookup contract_id) ;;;
    if lookup_raises E then raise "store lookup failed" else
    db <- get_store ;;
    match filter (matches_id contract_id) db with
    | [] => ret (RNotFound contract_id)
    | contract :: _ =>
        let sp := storage_path contract in
        let db_upload_status := upload_status contract in
        if ne_processing db_upload_status
        then ret (RSkipDatabase hint db_upload_status)
        else if negb (truthy sp) then ret (RNoStoragePath contract_id)
        else
          raw <- extract_text_from_pdf E sp ;;
          emit (Write contract_id) ;;;
          if update_raises E then raise "store update failed" else
          db' <- get_store ;;
          put_store (map (apply_update contract_id raw (now E)) db') ;;;
          ret (RSuccess contract_id (py_len raw) hint db_upload_status)
    end.

(** The [try: ... except Exception as e:] wrapper: any exception becomes a
    500 response; effects performed before it stay. *)
Definition process_contract (E : env) (trg : trigger) (s : state) : state * response :=
  match process_body E trg s with
  | (s', Ok r) => (s', r)
  | (s', Err e) => (s', RError e)
  end.

(** ** Reading the trigger from the request (src/app.py, lines 84-130) *)

(** The parsed JSON body when [request.is_json]: an object (as a key/value
    list with distinct keys), any other JSON value (array, string, number,
    boolean, null) with its truthiness, or a body that does not parse
    ([request.get_json()] raises). *)
Inductive json_body : Type :=
| JDict (kv : list (string * pyval))
| JOther (is_truthy : bool)
| JInvalid.

(** A POST request: the JSON body if the content type is JSON, the form
    fields and the query parameters ([to_dict()] of each, distinct keys). *)
Record request : Type := mkRequest {
  rq_json : option json_body;
  rq_form : list (string * string);
  rq_args : list (string * string)
}.

(** [dict.get(key)]: [None] when the key is absent. *)
Fixpoint dict_get (kv : list (string * pyval)) (key : string) : pyval :=
  match kv with
  | [] => VNone
  | (k, v) :: rest => if String.eqb k key then v else dict_get rest key
  end.

Fixpoint sdict_get (kv : list (string * string)) (key : string) : pyval :=
  match kv with
  | [] => VNone
  | (k, v) :: rest => if String.eqb k key then VStr v else sdict_get rest key
  end.

(** Priority 1: the JSON body, when [webhook_data.get('json_body')] is
    truthy; a truthy non-object has no [.get] and raises. *)
Definition json_fields (j : option json_body) : res (pyval * pyval) :=
  match j with
  | None => Ok (VNone, VNone)
  | Some JInvalid => Err "Failed to decode JSON object"
  | Some (JDict []) => Ok (VNone, VNone)
  | Some (JDict kv) => Ok (dict_get kv "contract_id", dict_get kv "upload_status")
  | Some (JOther false) => Ok (VNone, VNone)
  | Some (JOther true) => Err "object has no attribute 'get'"
  end.

(** Priorities 2 and 3: a non-empty form or query dict is consulted when no
    truthy [contract_id] has been found yet; it replaces both values. *)
Definition fallback_fields (kv : list (string * string)) (cur : pyval * pyval) : pyval * pyval :=
  match kv with
  | [] => cur
  | _ :: _ =>
      if negb (truthy (fst cur))
      then (sdict_get kv "contract_id", sdict_get kv "upload_status")
      else cur
  end.

Definition read_trigger (rq : request) : res trigger :=
  match json_fields (rq_json rq) with
  | Err e => Err e
  | Ok cur =>
      let '(contract_id, upload_status) :=
        fallback_fields (rq_args rq) (fallback_fields (rq_form rq) cur) in
      Ok (mkTrigger contract_id upload_status)
  end.

(** The POST branch of [process_contract] from the raw request: an error
    while reading the payload is caught by the same [except] (500). *)
Definition handle_post (E : env) (rq : request) (s : state) : state * response :=
  match read_trigger rq with
  | Err e => (s, RError e)
  | Ok trg => process_contract E trg s
  end.

(** Indices of the pages the loop sends to OCR, in loop order. *)
Fixpoint scanned_indices (page_num : nat) (pages : list string) : list nat :=
  match pages with
  | [] => []
  | p :: rest =>
      if needs_ocr p then page_num :: scanned_indices (S page_num) rest
      else scanned_indices (S page_num) rest
  end.

(** [s.isspace() or s == ""]: every character is whitespace for [str.strip()]. *)
Definition all_space (s : string) : bool := forallb py_isspace (utf8_decode s).

(** ** The retry policy as the spec words it (not in the source)

    "at most 2 total attempts, with a fixed inter-attempt delay (1 time
    unit)": the OCR step the spec describes, to be compared with
    [ocr_page]. *)
Definition ocr_page_with_retry (E : env) (page_num : nat) : M string :=
  emit (OcrCall page_num 1) ;;;
  match ocr E page_num 1 with
  | Some ocr_text => ret ocr_text
  | None =>
      emit (Sleep 1) ;;;
      emit (OcrCall page_num 2) ;;;
      match ocr E page_num 2 with
      | Some ocr_text => ret ocr_text
      | None => raise "OCR error"
      end
  end.

Definition extract_text_with_retry (E : env) (pdf_url : pyval) : M string :=
  emit (Download pdf_url) ;;;
  match fetch E pdf_url with
  | None => raise "Error extracting text from PDF"
  | Some doc => extract_pages_with (ocr_page_with_retry E) doc 0 ""
  end.

(** ** Per-page view of the extraction loop *)

(** The text the loop appends for page [page_num], when it gets that far
    ([None]: the OCR call raised). *)
Definition page_block (E : env) (page_num : nat) (page_text : string) : option string :=
  if needs_ocr page_text then option_map (fun t => ocr_header page_num ++ t) (ocr E page_num 1)
  else Some (page_header page_num ++ page_text).

Fixpoint page_blocks (E : env) (page_num : nat) (pages : list string) : option (list string) :=
  match pages with
  | [] => Some []
  | p :: rest =>
      match page_block E page_num p, page_blocks E (S page_num) rest with
      | Some b, Some bs => Some (b :: bs)
      | _, _ => None
      end
  end.

(** Concatenation of strings in list order. *)
Definition concat_all (bs : list string) : string := fold_right String.append "" bs.

(** What [extract_text_from_pdf] returns, whatever the state. *)
Definition extract_result (E : env) (pdf_url : pyval) : res string :=
  match fetch E pdf_url with
  | None => Err "Error extracting text from PDF"
  | Some pages =>
      match page_blocks E 0 pages with
      | Some bs => Ok (concat_all bs)
      | None => Err "OCR error"
      end
  end.

(** The column invariant of the [contracts] table stated by the spec. *)
Definition raw_text_inv (c : contract) : Prop :=
  raw_text c <> None <->
  (upload_status c = VStr "completed" \/ upload_status c = VStr "failed").

(** ** Sample inputs: a three-page contract whose second page is scanned *)

Definition sample_url : pyval := VStr "https://store/contracts/c1.pdf".

Definition sample_long : string :=
  "This vehicle rental agreement is made between the parties named below.".

Definition sample_pages : list string := [sample_long; "  p. 2  "; sample_long].

Fixpoint repeat_str (n : nat) (s : string) : string :=
  match n with
  | O => EmptyString
  | S k => s ++ repeat_str k s
  end.

(** U+00E9 (e with acute accent) and U+00A0 (no-break space), UTF-8 encoded. *)
Definition e_acute : string :=
  String (ascii_of_nat 195) (String (ascii_of_nat 169) EmptyString).
Definition nbsp : string :=
  String (ascii_of_nat 194) (String (ascii_of_nat 160) EmptyString).

(** 30 accented letters: 60 bytes, 30 characters. *)
Definition sample_accented : string := repeat_str 30 e_acute.

Definition sample_env : env :=
  mkEnv (fun url => if pyval_eq_dec url sample_url then Some sample_pages else None)
        (fun _ _ => Some "Signed by both parties")
        "2026-01-01T00:00:00" false false.

Definition sample_contract : contract :=
  mkContract (VStr "c1") sample_url (VStr "processing") None None.

Definition sample_state : state := mkState [sample_contract] [].

(** * Lemmas *)

Arguments ocr_header : simpl never.
Arguments page_header : simpl never.

Lemma str_append_assoc (a b c : string) : a ++ (b ++ c) = (a ++ b) ++ c.
Proof. induction a as [|x a IH]; simpl; [reflexivity | now rewrite IH]. Qed.

Lemma str_append_nil (a : string) : a ++ "" = a.
Proof. induction a as [|x a IH]; simpl; [reflexivity | now rewrite IH]. Qed.

Lemma not_in_app_cons {A} (x : A) l1 l2 : ~ In x l1 -> ~ In x l2 -> ~ In x (l1 ++ l2).
Proof. intros H1 H2 H; apply in_app_or in H; tauto. Qed.

(** The loop [extract_pages] leaves the store alone, appends only OCR calls
    (attempt 1, once per scanned page it reaches) to the trace, and returns
    the ordered concatenation of the page blocks, or fails exactly when
    some OCR call raises. *)
Lemma extract_pages_spec (E : env) (pages : list string) :
  forall page_num text s,
  let '(s', r) := extract_pages E pages page_num text s in
  st_store s' = st_store s /\
  exists new, st_trace s' = (st_trace s ++ new)%list /\
  (forall e, In e new -> exists i p, e = OcrCall i 1 /\ page_num <= i /\
        nth_error pages (i - page_num) = Some p /\ needs_ocr p = true) /\
  NoDup new /\
  r = match page_blocks E page_num pages with
      | Some bs => Ok (text ++ concat_all bs)
      | None => Err "OCR error"
      end /\
  (page_blocks E page_num pages <> None ->
   forall j p, nth_error pages j = Some p -> needs_ocr p = true ->
   In (OcrCall (page_num + j) 1) new).
Proof.
  induction pages as [|p rest IH]; intros page_num text s.
  - simpl. split; [reflexivity|]. exists []. rewrite app_nil_r.
    split; [reflexivity|]. split; [intros e []|]. split; [constructor|].
    split; [unfold concat_all; simpl; now rewrite str_append_nil|].
    intros _ j q Hj; destruct j; discriminate.
  - unfold extract_pages; cbn [extract_pages_with page_blocks]; fold (extract_pages E).
    unfold bind at 1, resolve_page_with, page_block.
    destruct (needs_ocr p) eqn:Hn.
    + unfold bind at 1, ocr_page, bind, emit; cbn [st_store st_trace].
      destruct (ocr E page_num 1) as [t|] eqn:Ho; cbn [option_map ret raise].
      * specialize (IH (S page_num) (text ++ (ocr_header page_num ++ t))
                       (mkState (st_store s) (st_trace s ++ [OcrCall page_num 1])%list)).
        destruct (extract_pages E rest (S page_num) _ _) as [s' r] eqn:He.
        destruct IH as (Hst & new & Htr & Hev & Hnd & Hr & Hall).
        split; [exact Hst|].
        exists (OcrCall page_num 1 :: new). cbn [st_trace] in Htr.
        rewrite Htr, <- List.app_assoc. split; [reflexivity|].
        split; [|split; [|split]].
        -- intros e [<-|Hin].
           ++ exists page_num, p. rewrite Nat.sub_diag. repeat split; auto.
           ++ destruct (Hev e Hin) as (i & q & -> & Hle & Hq & Hnq).
              exists i, q. repeat split; auto; try lia.
              replace (i - page_num) with (S (i - S page_num)) by lia. exact Hq.
        -- constructor; [|exact Hnd]. intros Hin.
           destruct (Hev _ Hin) as (i & q & Heq & Hle & _). injection Heq; lia.
        -- rewrite Hr. destruct (page_blocks E (S page_num) rest); [|reflexivity].
           unfold concat_all; cbn [fold_right]. now rewrite <- str_append_assoc.
        -- intros Hnb j q Hj Hq. destruct j as [|j].
           ++ left. f_equal. lia.
           ++ right. simpl in Hj. rewrite Nat.add_succ_r, <- Nat.add_succ_l.
              refine (Hall _ j q Hj Hq). intros Hc; apply Hnb; now rewrite Hc.
      * split; [reflexivity|]. exists [OcrCall page_num 1]. cbn [st_trace].
        split; [reflexivity|]. split; [|split; [|split]].
        -- intros e [<-|[]]. exists page_num, p. rewrite Nat.sub_diag. repeat split; auto.
        -- constructor; [intros []|constructor].
        -- reflexivity.
        -- intros Hc; exfalso; apply Hc; reflexivity.
    + unfold ret at 1.
      specialize (IH (S page_num) (text ++ (page_header page_num ++ p)) s).
      destruct (extract_pages E rest (S page_num) _ _) as [s' r] eqn:He.
      destruct IH as (Hst & new & Htr & Hev & Hnd & Hr & Hall).
      split; [exact Hst|]. exists new. split; [exact Htr|].
      split; [|split; [exact Hnd|split]].
      * intros e Hin. destruct (Hev e Hin) as (i & q & -> & Hle & Hq & Hnq).
        exists i, q. repeat split; auto; try lia.
        replace (i - page_num) with (S (i - S page_num)) by lia. exact Hq.
      * rewrite Hr. destruct (page_blocks E (S page_num) rest); [|reflexivity].
        unfold concat_all; cbn [fold_right]. now rewrite <- str_append_assoc.
      * intros Hnb j q Hj Hq. destruct j as [|j].
        -- simpl in Hj. injection Hj as <-. congruence.
        -- simpl in Hj. rewrite Nat.add_succ_r, <- Nat.add_succ_l.
           refine (Hall _ j q Hj Hq). intros Hc; apply Hnb; now rewrite Hc.
Qed.

Lemma page_blocks_nth (E : env) (pages : list string) :
  forall page_num bs, page_blocks E page_num pages = Some bs ->
  length bs = length pages /\
  forall i p, nth_error pages i = Some p ->
  exists b, page_block E (page_num + i) p = Some b /\ nth_error bs i = Some b.
Proof.
  induction pages as [|p rest IH]; intros page_num bs H; cbn [page_blocks] in H.
  - injection H as <-. split; [reflexivity|]. intros [|i] q Hq; discriminate.
  - destruct (page_block E page_num p) as [b|] eqn:Hb; [|discriminate].
    destruct (page_blocks E (S page_num) rest) as [bs'|] eqn:Hbs; [|discriminate].
    injection H as <-. destruct (IH _ _ Hbs) as [Hlen Hnth].
    split; [cbn; now rewrite Hlen|].
    intros [|i] q Hq; cbn in Hq.
    + injection Hq as <-. exists b. rewrite Nat.add_0_r. auto.
    + destruct (Hnth i q Hq) as (b' & Hb' & Hn). exists b'.
      rewrite Nat.add_succ_r, <- Nat.add_succ_l. auto.
Qed.

Lemma page_blocks_fail (E : env) (pages : list string) :
  forall page_num i p, nth_error pages i = Some p ->
  page_block E (page_num + i) p = None -> page_blocks E page_num pages = None.
Proof.
  induction pages as [|q rest IH]; intros page_num i p Hi Hb.
  - destruct i; discriminate.
  - cbn [page_blocks]. destruct i as [|i]; cbn in Hi.
    + injection Hi as ->. rewrite Nat.add_0_r in Hb. now rewrite Hb.
    + rewrite Nat.add_succ_r, <- Nat.add_succ_l in Hb.
      rewrite (IH (S page_num) i p Hi Hb). now destruct (page_block E page_num q).
Qed.

Lemma concat_all_nth (bs : list string) :
  forall i b, nth_error bs i = Some b ->
  exists pre post, concat_all bs = pre ++ b ++ post.
Proof.
  induction bs as [|b0 bs IH]; intros i b H; [destruct i; discriminate|].
  destruct i as [|i]; cbn in H.
  - injection H as <-. exists "", (concat_all bs). reflexivity.
  - destruct (IH i b H) as (pre & post & Heq). exists (b0 ++ pre), post.
    unfold concat_all in *; cbn [fold_right]. rewrite Heq.
    now rewrite str_append_assoc.
Qed.

(** The whole of [extract_text_from_pdf]: one download, then only
    first-attempt OCR calls, at most one per page, and the result
    [extract_result]. *)
Lemma extract_text_spec (E : env) (url : pyval) (s : state) :
  let '(s', r) := extract_text_from_pdf E url s in
  st_store s' = st_store s /\
  exists new, st_trace s' = (st_trace s ++ Download url :: new)%list /\
  (forall e, In e new -> exists i p, e = OcrCall i 1 /\
      (exists pages, fetch E url = Some pages /\ nth_error pages i = Some p) /\
      needs_ocr p = true) /\
  NoDup new /\
  r = extract_result E url /\
  (forall pages, fetch E url = Some pages -> page_blocks E 0 pages <> None ->
   forall j p, nth_error pages j = Some p -> needs_ocr p = true ->
   In (OcrCall j 1) new).
Proof.
  unfold extract_text_from_pdf, extract_result, bind at 1, emit; cbn [st_store st_trace].
  destruct (fetch E url) as [pages|] eqn:Hf.
  - pose proof (extract_pages_spec E pages 0 ""
                  (mkState (st_store s) (st_trace s ++ [Download url])%list)) as H.
    destruct (extract_pages E pages 0 "" _) as [s' r].
    destruct H as (Hst & new & Htr & Hev & Hnd & Hr & Hall).
    split; [exact Hst|]. exists new. cbn [st_trace] in Htr.
    rewrite Htr, <- List.app_assoc. split; [reflexivity|].
    split; [|split; [exact Hnd|split]].
    + intros e Hin. destruct (Hev e Hin) as (i & p & -> & _ & Hp & Hn).
      rewrite Nat.sub_0_r in Hp. exists i, p. split; [reflexivity|].
      split; [exists pages; auto|exact Hn].
    + rewrite Hr. now destruct (page_blocks E 0 pages).
    + intros pg Hpg Hnb j p Hj Hn. injection Hpg as <-. exact (Hall Hnb j p Hj Hn).
  - split; [reflexivity|]. exists []. split; [reflexivity|].
    split; [intros e []|]. split; [constructor|]. split; [reflexivity|].
    intros pg Hpg; discriminate.
Qed.

(** * Extraction pipeline *)

(** C1: a page whose stripped native text is shorter than 50 characters
    is OCRed and its block in the artifact is the OCR header followed by
    the OCR output; a page with at least 50 is never OCRed and its block is
    the page header followed by its native text. *)
Theorem ocr_fallback_threshold (E : env) (url : pyval) (pages : list string)
    (s : state) (i : nat) (p : string) :
  fetch E url = Some pages -> nth_error pages i = Some p ->
  let '(s', r) := extract_text_from_pdf E url s in
  exists new, st_trace s' = (st_trace s ++ Download url :: new)%list /\
  (length (strip (utf8_decode p)) < 50 ->
     forall text, r = Ok text ->
     exists t bs, ocr E i 1 = Some t /\ In (OcrCall i 1) new /\
       text = concat_all bs /\ nth_error bs i = Some (ocr_header i ++ t)) /\
  (50 <= length (strip (utf8_decode p)) ->
     (forall k, ~ In (OcrCall i k) new) /\
     forall text, r = Ok text ->
     exists bs, text = concat_all bs /\ nth_error bs i = Some (page_header i ++ p)).
Proof.
  intros Hf Hp.
  pose proof (extract_text_spec E url s) as H.
  destruct (extract_text_from_pdf E url s) as [s' r].
  destruct H as (_ & new & Htr & Hev & _ & Hr & Hall).
  exists new. split; [exact Htr|]. unfold extract_result in Hr. rewrite Hf in Hr.
  split.
  - intros Hlt text ->. assert (Hn : needs_ocr p = true) by (apply Nat.ltb_lt; exact Hlt).
    destruct (page_blocks E 0 pages) as [bs|] eqn:Hbs; [|discriminate].
    injection Hr as ->. destruct (page_blocks_nth E pages 0 bs Hbs) as [_ Hnth].
    destruct (Hnth i p Hp) as (b & Hb & Hbi). rewrite Nat.add_0_l in Hb. unfold page_block in Hb.
    rewrite Hn in Hb. destruct (ocr E i 1) as [t|] eqn:Ho; cbn in Hb; [|discriminate].
    injection Hb as <-. exists t, bs. repeat split; auto.
    apply (Hall pages Hf ltac:(now rewrite Hbs) i p Hp Hn).
  - intros Hge. assert (Hn : needs_ocr p = false) by (apply Nat.ltb_ge; exact Hge).
    split.
    + intros k Hin. destruct (Hev _ Hin) as (j & q & Heq & (pg & Hpg & Hq) & Hnq).
      injection Heq as -> ->. rewrite Hf in Hpg. injection Hpg as <-.
      rewrite Hp in Hq. injection Hq as <-. congruence.
    + intros text ->.
      destruct (page_blocks E 0 pages) as [bs|] eqn:Hbs; [|discriminate].
      injection Hr as ->. destruct (page_blocks_nth E pages 0 bs Hbs) as [_ Hnth].
      destruct (Hnth i p Hp) as (b & Hb & Hbi). rewrite Nat.add_0_l in Hb. unfold page_block in Hb.
      rewrite Hn in Hb. cbn in Hb. injection Hb as <-. exists bs. auto.
Qed.

Lemma ocr_fallback_threshold_witness :
  let E := mkEnv (fun _ => Some [sample_long; sample_accented])
                 (fun _ _ => Some "Signed by both parties") "T" false false in
  let u := VStr "u" in
  let s0 := mkState [] [] in
  (String.length sample_accented = 60%nat /\
   length (strip (utf8_decode sample_accented)) = 30%nat /\
   length (strip (utf8_decode sample_long)) = 70%nat) /\
  (fetch E u = Some [sample_long; sample_accented] /\
   nth_error [sample_long; sample_accented] 0 = Some sample_long /\
   nth_error [sample_long; sample_accented] 1 = Some sample_accented) /\
  (let '(s', r) := extract_text_from_pdf E u s0 in
   exists new, st_trace s' = (st_trace s0 ++ Download u :: new)%list /\
   (length (strip (utf8_decode sample_long)) < 50 ->
      forall text, r = Ok text ->
      exists t bs, ocr E 0 1 = Some t /\ In (OcrCall 0 1) new /\
        text = concat_all bs /\ nth_error bs 0 = Some (ocr_header 0 ++ t)) /\
   (50 <= length (strip (utf8_decode sample_long)) ->
      (forall k, ~ In (OcrCall 0 k) new) /\
      forall text, r = Ok text ->
      exists bs, text = concat_all bs /\ nth_error bs 0 = Some (page_header 0 ++ sample_long))) /\
  (let '(s', r) := extract_text_from_pdf E u s0 in
   exists new, st_trace s' = (st_trace s0 ++ Download u :: new)%list /\
   (length (strip (utf8_decode sample_accented)) < 50 ->
      forall text, r = Ok text ->
      exists t bs, ocr E 1 1 = Some t /\ In (OcrCall 1 1) new /\
        text = concat_all bs /\ nth_error bs 1 = Some (ocr_header 1 ++ t)) /\
   (50 <= length (strip (utf8_decode sample_accented)) ->
      (forall k, ~ In (OcrCall 1 k) new) /\
      forall text, r = Ok text ->
      exists bs, text = concat_all bs /\ nth_error bs 1 = Some (page_header 1 ++ sample_accented))).
Proof.
  cbv zeta. split; [repeat split; vm_compute; reflexivity|].
  split; [repeat split; reflexivity|]. split.
  - exact (ocr_fallback_threshold
             (mkEnv (fun _ => Some [sample_long; sample_accented])
                    (fun _ _ => Some "Signed by both parties") "T" false false)
             (VStr "u") [sample_long; sample_accented] (mkState [] []) 0 sample_long
             eq_refl eq_refl).
  - exact (ocr_fallback_threshold
             (mkEnv (fun _ => Some [sample_long; sample_accented])
                    (fun _ _ => Some "Signed by both parties") "T" false false)
             (VStr "u") [sample_long; sample_accented] (mkState [] []) 1 sample_accented
             eq_refl eq_refl).
Defined.

(** C5: on success the artifact is the concatenation of one block per
    page, in ascending page index, whichever pages needed OCR. *)
Theorem pages_in_order (E : env) (url : pyval) (pages : list string)
    (s s' : state) (text : string) :
  fetch E url = Some pages ->
  extract_text_from_pdf E url s = (s', Ok text) ->
  exists bs, length bs = length pages /\ text = concat_all bs /\
  forall i p, nth_error pages i = Some p ->
  exists b, nth_error bs i = Some b /\ page_block E i p = Some b.
Proof.
  intros Hf Hx.
  pose proof (extract_text_spec E url s) as H. rewrite Hx in H.
  destruct H as (_ & _ & _ & _ & _ & Hr & _).
  unfold extract_result in Hr. rewrite Hf in Hr.
  destruct (page_blocks E 0 pages) as [bs|] eqn:Hbs; [|discriminate].
  injection Hr as ->. destruct (page_blocks_nth E pages 0 bs Hbs) as [Hlen Hnth].
  exists bs. split; [exact Hlen|]. split; [reflexivity|].
  intros i p Hp. destruct (Hnth i p Hp) as (b & Hb & Hbi). exists b. auto.
Qed.

Lemma pages_in_order_witness :
  (fetch sample_env sample_url = Some sample_pages /\
   extract_text_from_pdf sample_env sample_url sample_state =
   (mkState [sample_contract] [Download sample_url; OcrCall 1 1],
    Ok (page_header 0 ++ sample_long ++ ocr_header 1 ++ "Signed by both parties"
        ++ page_header 2 ++ sample_long))) /\
  exists bs, length bs = length sample_pages /\
  page_header 0 ++ sample_long ++ ocr_header 1 ++ "Signed by both parties"
    ++ page_header 2 ++ sample_long = concat_all bs /\
  forall i p, nth_error sample_pages i = Some p ->
  exists b, nth_error bs i = Some b /\ page_block sample_env i p = Some b.
Proof.
  assert (Hx : extract_text_from_pdf sample_env sample_url sample_state =
   (mkState [sample_contract] [Download sample_url; OcrCall 1 1],
    Ok (page_header 0 ++ sample_long ++ ocr_header 1 ++ "Signed by both parties"
        ++ page_header 2 ++ sample_long))) by (vm_compute; reflexivity).
  split; [split; [reflexivity | exact Hx]|].
  exact (pages_in_order sample_env sample_url sample_pages sample_state _ _ eq_refl Hx).
Defined.

(** C4, as the spec words it: the code's OCR step is not the two-attempt
    policy.  A page whose first OCR attempt raises and whose second would
    succeed fails the whole extraction in the code, while the policy would
    sleep one unit and recover it. *)
Lemma ocr_retry_counterexample :
  let E := mkEnv (fun _ => Some [""])
                 (fun _ attempt => if (attempt =? 1)%nat then None else Some "recovered")
                 "" false false in
  let s0 := mkState [] [] in
  extract_text_from_pdf E (VStr "u") s0 =
    (mkState [] [Download (VStr "u"); OcrCall 0 1], Err "OCR error") /\
  extract_text_with_retry E (VStr "u") s0 =
    (mkState [] [Download (VStr "u"); OcrCall 0 1; Sleep 1; OcrCall 0 2],
     Ok (ocr_header 0 ++ "recovered")).
Proof. split; vm_compute; reflexivity. Qed.

(** C4 (amended): OCR is attempted once per scanned page, with no retry
    and no delay, and one failing OCR call aborts the whole document. *)
Theorem ocr_single_attempt (E : env) (url : pyval) (pages : list string) (s : state) :
  fetch E url = Some pages ->
  let '(s', r) := extract_text_from_pdf E url s in
  exists new, st_trace s' = (st_trace s ++ Download url :: new)%list /\
  (forall e, In e new -> exists i, e = OcrCall i 1) /\
  NoDup new /\
  ((exists i p, nth_error pages i = Some p /\ needs_ocr p = true /\ ocr E i 1 = None) ->
   r = Err "OCR error").
Proof.
  intros Hf.
  pose proof (extract_text_spec E url s) as H.
  destruct (extract_text_from_pdf E url s) as [s' r].
  destruct H as (_ & new & Htr & Hev & Hnd & Hr & _).
  exists new. split; [exact Htr|]. split; [|split; [exact Hnd|]].
  - intros e Hin. destruct (Hev e Hin) as (i & _ & -> & _). now exists i.
  - intros (i & p & Hp & Hn & Ho). rewrite Hr. unfold extract_result. rewrite Hf.
    rewrite (page_blocks_fail E pages 0 i p Hp); [reflexivity|].
    unfold page_block. rewrite Nat.add_0_l, Hn, Ho. reflexivity.
Qed.

Lemma ocr_single_attempt_witness :
  fetch sample_env sample_url = Some sample_pages /\
  (let '(s', r) := extract_text_from_pdf sample_env sample_url sample_state in
   exists new, st_trace s' = (st_trace sample_state ++ Download sample_url :: new)%list /\
   (forall e, In e new -> exists i, e = OcrCall i 1) /\
   NoDup new /\
   ((exists i p, nth_error sample_pages i = Some p /\ needs_ocr p = true /\
                 ocr sample_env i 1 = None) ->
    r = Err "OCR error")).
Proof.
  split; [reflexivity|].
  exact (ocr_single_attempt sample_env sample_url sample_pages sample_state eq_refl).
Defined.

(** C8, as the spec words it: the artifact is not whitespace-normalized.
    A native page with a double space and a triple newline keeps both. *)
Lemma not_normalized_counterexample :
  let page := "Rental  agreement" ++ nl ++ nl ++ nl ++
              "between the parties named below, effective today." in
  let E := mkEnv (fun _ => Some [page]) (fun _ _ => None) "" false false in
  exists text,
  snd (extract_text_from_pdf E (VStr "u") (mkState [] [])) = Ok text /\
  String.index 0 "  " text <> None /\
  String.index 0 (nl ++ nl ++ nl) text <> None.
Proof.
  cbv zeta. eexists. split; [vm_compute; reflexivity|].
  split; vm_compute; discriminate.
Qed.

(** C8 (amended): no normalization.  On success the artifact is exactly
    the in-order concatenation of one block per page; the block of a page
    kept as text is the page marker followed by its native text verbatim,
    the block of a scanned page the OCR marker followed by the OCR output
    verbatim. *)
Theorem page_text_verbatim (E : env) (url : pyval) (pages : list string)
    (s s' : state) (text : string) :
  fetch E url = Some pages ->
  extract_text_from_pdf E url s = (s', Ok text) ->
  exists bs, length bs = length pages /\ text = concat_all bs /\
  forall i p, nth_error pages i = Some p ->
  (needs_ocr p = false -> nth_error bs i = Some (page_header i ++ p)) /\
  (needs_ocr p = true -> exists t, ocr E i 1 = Some t /\
                                   nth_error bs i = Some (ocr_header i ++ t)).
Proof.
  intros Hf Hx.
  pose proof (extract_text_spec E url s) as H. rewrite Hx in H.
  destruct H as (_ & _ & _ & _ & _ & Hr & _).
  unfold extract_result in Hr. rewrite Hf in Hr.
  destruct (page_blocks E 0 pages) as [bs|] eqn:Hbs; [|discriminate].
  injection Hr as ->. destruct (page_blocks_nth E pages 0 bs Hbs) as [Hlen Hnth].
  exists bs. split; [exact Hlen|]. split; [reflexivity|].
  intros i p Hp. destruct (Hnth i p Hp) as (b & Hb & Hbi).
  rewrite Nat.add_0_l in Hb. unfold page_block in Hb.
  split; intros Hn; rewrite Hn in Hb; cbn in Hb.
  - injection Hb as <-. exact Hbi.
  - destruct (ocr E i 1) as [t|]; cbn in Hb; [|discriminate].
    injection Hb as <-. exists t. split; [reflexivity|exact Hbi].
Qed.

Lemma page_text_verbatim_witness :
  (fetch sample_env sample_url = Some sample_pages /\
   extract_text_from_pdf sample_env sample_url sample_state =
   (mkState [sample_contract] [Download sample_url; OcrCall 1 1],
    Ok (page_header 0 ++ sample_long ++ ocr_header 1 ++ "Signed by both parties"
        ++ page_header 2 ++ sample_long))) /\
  exists bs, length bs = length sample_pages /\
  page_header 0 ++ sample_long ++ ocr_header 1 ++ "Signed by both parties"
    ++ page_header 2 ++ sample_long = concat_all bs /\
  forall i p, nth_error sample_pages i = Some p ->
  (needs_ocr p = false -> nth_error bs i = Some (page_header i ++ p)) /\
  (needs_ocr p = true -> exists t, ocr sample_env i 1 = Some t /\
                                   nth_error bs i = Some (ocr_header i ++ t)).
Proof.
  assert (Hx : extract_text_from_pdf sample_env sample_url sample_state =
   (mkState [sample_contract] [Download sample_url; OcrCall 1 1],
    Ok (page_header 0 ++ sample_long ++ ocr_header 1 ++ "Signed by both parties"
        ++ page_header 2 ++ sample_long))) by (vm_compute; reflexivity).
  split; [split; [reflexivity | exact Hx]|].
  exact (page_text_verbatim sample_env sample_url sample_pages sample_state _ _ eq_refl Hx).
Defined.

(** * The handler *)

(** Past the two payload checks, [process_contract] looks the contract up
    and continues as below. *)
Lemma process_gate (E : env) (trg : trigger) (s : state) :
  truthy (t_contract_id trg) = true ->
  truthy (t_upload_status trg) && ne_processing (t_upload_status trg) = false ->
  let cid := t_contract_id trg in
  let h := t_upload_status trg in
  let s1 := mkState (st_store s) (st_trace s ++ [Lookup cid])%list in
  process_contract E trg s =
  if lookup_raises E then (s1, RError "store lookup failed") else
  match filter (matches_id cid) (st_store s) with
  | [] => (s1, RNotFound cid)
  | c :: _ =>
      if ne_processing (upload_status c) then (s1, RSkipDatabase h (upload_status c))
      else if negb (truthy (storage_path c)) then (s1, RNoStoragePath cid)
      else
        let '(s2, r) := extract_text_from_pdf E (storage_path c) s1 in
        match r with
        | Err e => (s2, RError e)
        | Ok raw =>
            let s3 := mkState (st_store s2) (st_trace s2 ++ [Write cid])%list in
            if update_raises E then (s3, RError "store update failed")
            else (mkState (map (apply_update cid raw (now E)) (st_store s3)) (st_trace s3),
                  RSuccess cid (py_len raw) h (upload_status c))
        end
  end.
Proof.
  intros Hid Hh. cbv zeta.
  unfold process_contract, process_body. cbv zeta. rewrite Hid, Hh. cbn [negb].
  unfold bind at 1, emit. cbn [st_store st_trace].
  destruct (lookup_raises E); [reflexivity|].
  unfold bind at 1, get_store. cbn [st_store st_trace].
  destruct (filter (matches_id (t_contract_id trg)) (st_store s)) as [|c rest];
    [reflexivity|].
  destruct (ne_processing (upload_status c)); [reflexivity|].
  destruct (negb (truthy (storage_path c))); [reflexivity|].
  unfold bind at 1.
  destruct (extract_text_from_pdf E (storage_path c) _) as [s2 [raw|e]]; [|reflexivity].
  unfold bind, emit, get_store, put_store, ret. cbn [st_store st_trace].
  destruct (update_raises E); reflexivity.
Qed.

(** C2: when the stored status of the looked-up contract is not
    "processing", the run is a skip reported as success: nothing is
    downloaded, OCRed or written; at most the lookup happened. *)
Theorem stored_status_skip (E : env) (trg : trigger) (s : state) (c : contract)
    (rest : list contract) :
  truthy (t_contract_id trg) = true ->
  lookup_raises E = false ->
  filter (matches_id (t_contract_id trg)) (st_store s) = c :: rest ->
  ne_processing (upload_status c) = true ->
  let '(s', r) := process_contract E trg s in
  success r = true /\ http_status r = 200 /\
  (r = RSkipWebhook (t_upload_status trg) \/
   r = RSkipDatabase (t_upload_status trg) (upload_status c)) /\
  st_store s' = st_store s /\
  exists new, st_trace s' = (st_trace s ++ new)%list /\
  forall e, In e new -> e = Lookup (t_contract_id trg).
Proof.
  intros Hid Hl Hc Hst.
  destruct (truthy (t_upload_status trg) && ne_processing (t_upload_status trg)) eqn:Hh.
  - unfold process_contract, process_body. cbv zeta. rewrite Hid, Hh. cbn [negb ret].
    split; [reflexivity|]. split; [reflexivity|]. split; [left; reflexivity|].
    split; [reflexivity|]. exists []. rewrite app_nil_r. split; [reflexivity|intros e []].
  - rewrite (process_gate E trg s Hid Hh). cbv zeta. rewrite Hl, Hc, Hst.
    split; [reflexivity|]. split; [reflexivity|]. split; [right; reflexivity|].
    split; [reflexivity|]. exists [Lookup (t_contract_id trg)].
    split; [reflexivity|]. intros e [<-|[]]. reflexivity.
Qed.

Lemma stored_status_skip_witness :
  let c := mkContract (VStr "c1") sample_url (VStr "completed") (Some "done") (Some "T") in
  (truthy (VStr "c1") = true /\ lookup_raises sample_env = false /\
   filter (matches_id (VStr "c1")) [c] = [c] /\ ne_processing (VStr "completed") = true) /\
  let '(s', r) := process_contract sample_env (mkTrigger (VStr "c1") (VStr "processing"))
                    (mkState [c] []) in
  success r = true /\ http_status r = 200 /\
  (r = RSkipWebhook (VStr "processing") \/
   r = RSkipDatabase (VStr "processing") (VStr "completed")) /\
  st_store s' = [c] /\
  exists new, st_trace s' = ([] ++ new)%list /\ forall e, In e new -> e = Lookup (VStr "c1").
Proof.
  cbv zeta. split; [repeat split; reflexivity|].
  exact (stored_status_skip sample_env (mkTrigger (VStr "c1") (VStr "processing"))
           (mkState [mkContract (VStr "c1") sample_url (VStr "completed") (Some "done") (Some "T")] [])
           _ [] eq_refl eq_refl eq_refl eq_refl).
Defined.

(** C3, as the spec words it: a failed extraction is not recorded.  The
    download fails, the response is a 500, and the contract row is left as
    it was: still "processing", [raw_text] and [processed_at] null. *)
Lemma failure_not_recorded_counterexample :
  let E := mkEnv (fun _ => None) (fun _ _ => None) "T" false false in
  process_contract E (mkTrigger (VStr "c1") VNone) sample_state =
    (mkState [sample_contract] [Lookup (VStr "c1"); Download sample_url],
     RError "Error extracting text from PDF") /\
  upload_status sample_contract = VStr "processing" /\
  raw_text sample_contract = None /\ processed_at sample_contract = None.
Proof. repeat split; vm_compute; reflexivity. Qed.

(** C3 (amended): for an admitted run whose extraction fails, the error is
    returned as a failure (500) and the store is left unchanged: no write
    happens, so no partial text and no failed status are recorded. *)
Theorem extraction_failure_no_write (E : env) (trg : trigger) (s : state)
    (c : contract) (rest : list contract) (msg : string) :
  truthy (t_contract_id trg) = true ->
  truthy (t_upload_status trg) && ne_processing (t_upload_status trg) = false ->
  lookup_raises E = false ->
  filter (matches_id (t_contract_id trg)) (st_store s) = c :: rest ->
  ne_processing (upload_status c) = false ->
  truthy (storage_path c) = true ->
  extract_result E (storage_path c) = Err msg ->
  let '(s', r) := process_contract E trg s in
  r = RError msg /\ success r = false /\ http_status r = 500 /\
  st_store s' = st_store s /\
  exists new,
    st_trace s' = (st_trace s ++ Lookup (t_contract_id trg) :: Download (storage_path c) :: new)%list /\
    forall e, In e new -> exists i, e = OcrCall i 1.
Proof.
  intros Hid Hh Hl Hc Hst Hsp Hx.
  rewrite (process_gate E trg s Hid Hh). cbv zeta. rewrite Hl, Hc, Hst, Hsp. cbn [negb].
  pose proof (extract_text_spec E (storage_path c)
                (mkState (st_store s) (st_trace s ++ [Lookup (t_contract_id trg)])%list)) as H.
  destruct (extract_text_from_pdf E (storage_path c) _) as [s2 r].
  destruct H as (Hst2 & new & Htr & Hev & _ & Hr & _).
  rewrite Hr, Hx. cbn [st_store st_trace] in Hst2, Htr.
  split; [reflexivity|]. split; [reflexivity|]. split; [reflexivity|].
  split; [exact Hst2|]. exists new. split.
  - rewrite Htr, <- List.app_assoc. reflexivity.
  - intros e Hin. destruct (Hev e Hin) as (i & _ & -> & _). now exists i.
Qed.

Lemma extraction_failure_no_write_witness :
  let E := mkEnv (fun _ => None) (fun _ _ => None) "T" false false in
  (truthy (VStr "c1") = true /\ truthy VNone && ne_processing VNone = false /\
   lookup_raises E = false /\
   filter (matches_id (VStr "c1")) [sample_contract] = [sample_contract] /\
   ne_processing (VStr "processing") = false /\ truthy sample_url = true /\
   extract_result E sample_url = Err "Error extracting text from PDF") /\
  let '(s', r) := process_contract E (mkTrigger (VStr "c1") VNone) sample_state in
  r = RError "Error extracting text from PDF" /\ success r = false /\ http_status r = 500 /\
  st_store s' = [sample_contract] /\
  exists new,
    st_trace s' = ([] ++ Lookup (VStr "c1") :: Download sample_url :: new)%list /\
    forall e, In e new -> exists i, e = OcrCall i 1.
Proof.
  cbv zeta. split; [repeat split; vm_compute; reflexivity|].
  exact (extraction_failure_no_write (mkEnv (fun _ => None) (fun _ _ => None) "T" false false)
           (mkTrigger (VStr "c1") VNone) sample_state sample_contract []
           "Error extracting text from PDF"
           eq_refl eq_refl eq_refl eq_refl eq_refl eq_refl eq_refl).
Defined.

(** C6, as the spec words it: a present hint that is the empty string is
    not "processing", yet the run is not skipped; here it goes on to
    extract and write the contract. *)
Lemma empty_hint_not_skipped_counterexample :
  process_contract sample_env (mkTrigger (VStr "c1") (VStr "")) sample_state =
  (mkState [mkContract (VStr "c1") sample_url (VStr "completed")
              (Some (page_header 0 ++ sample_long ++ ocr_header 1 ++
                     "Signed by both parties" ++ page_header 2 ++ sample_long))
              (Some "2026-01-01T00:00:00")]
           [Lookup (VStr "c1"); Download sample_url; OcrCall 1 1; Write (VStr "c1")],
   RSuccess (VStr "c1") 216 (VStr "") (VStr "processing")).
Proof. vm_compute. reflexivity. Qed.

(** C6 (amended): a falsy contract id is a 400 before the hint is looked
    at.  With a truthy id, a truthy hint other than "processing" makes the
    run a skip reported as success, before any lookup: the state, store and
    trace alike, is unchanged, whatever the stored status.  A falsy hint
    (the empty string among others) is treated as absent: the run ends in
    the same state and with the same HTTP status as with no hint, and is
    never a hint skip. *)
Theorem hint_skip (E : env) (trg : trigger) (s : state) :
  (truthy (t_contract_id trg) = false ->
   process_contract E trg s = (s, RMissingId) /\ http_status RMissingId = 400) /\
  (truthy (t_contract_id trg) = true ->
   truthy (t_upload_status trg) = true ->
   ne_processing (t_upload_status trg) = true ->
   process_contract E trg s = (s, RSkipWebhook (t_upload_status trg)) /\
   success (RSkipWebhook (t_upload_status trg)) = true) /\
  (truthy (t_contract_id trg) = true ->
   truthy (t_upload_status trg) = false ->
   fst (process_contract E trg s) =
     fst (process_contract E (mkTrigger (t_contract_id trg) VNone) s) /\
   http_status (snd (process_contract E trg s)) =
     http_status (snd (process_contract E (mkTrigger (t_contract_id trg) VNone) s)) /\
   forall st, snd (process_contract E trg s) <> RSkipWebhook st).
Proof.
  split; [|split].
  - intros Hid. split; [|reflexivity].
    unfold process_contract, process_body. cbv zeta. rewrite Hid. reflexivity.
  - intros Hid Ht Hn. split; [|reflexivity].
    unfold process_contract, process_body. cbv zeta. rewrite Hid, Ht, Hn. reflexivity.
  - intros Hid Hf.
    assert (Hh : truthy (t_upload_status trg) && ne_processing (t_upload_status trg) = false)
      by (rewrite Hf; reflexivity).
    rewrite (process_gate E trg s Hid Hh).
    rewrite (process_gate E (mkTrigger (t_contract_id trg) VNone) s Hid eq_refl).
    cbv zeta; cbn [t_contract_id t_upload_status].
    destruct (lookup_raises E);
      [|destruct (filter (matches_id (t_contract_id trg)) (st_store s)) as [|c rest];
        [|destruct (ne_processing (upload_status c));
          [|destruct (negb (truthy (storage_path c)));
            [|destruct (extract_text_from_pdf E (storage_path c) _) as [s2 [raw|e]];
              [destruct (update_raises E)|]]]]].
    all: split; [reflexivity|]; split; [reflexivity|]; intros st Hst; discriminate Hst.
Qed.

Lemma hint_skip_witness :
  (truthy VNone = false /\
   process_contract sample_env (mkTrigger VNone (VStr "completed")) sample_state =
     (sample_state, RMissingId)) /\
  (truthy (VStr "c1") = true /\ truthy (VStr "completed") = true /\
   ne_processing (VStr "completed") = true /\
   process_contract sample_env (mkTrigger (VStr "c1") (VStr "completed")) sample_state =
     (sample_state, RSkipWebhook (VStr "completed"))) /\
  (truthy (VStr "c1") = true /\ truthy (VStr "") = false /\
   fst (process_contract sample_env (mkTrigger (VStr "c1") (VStr "")) sample_state) =
     fst (process_contract sample_env (mkTrigger (VStr "c1") VNone) sample_state)).
Proof.
  destruct (hint_skip sample_env (mkTrigger VNone (VStr "completed")) sample_state)
    as [H1 _].
  destruct (hint_skip sample_env (mkTrigger (VStr "c1") (VStr "completed")) sample_state)
    as [_ [H2 _]].
  destruct (hint_skip sample_env (mkTrigger (VStr "c1") (VStr "")) sample_state)
    as [_ [_ H3]].
  split; [|split].
  - split; [reflexivity|]. exact (proj1 (H1 eq_refl)).
  - split; [reflexivity|]. split; [reflexivity|]. split; [reflexivity|].
    exact (proj1 (H2 eq_refl eq_refl eq_refl)).
  - split; [reflexivity|]. split; [reflexivity|]. exact (proj1 (H3 eq_refl eq_refl)).
Defined.

(** C7: a falsy contract id is a 400 before any lookup, with the state
    unchanged.  A trigger that passes the hint check (the hint is absent,
    falsy or exactly "processing") and whose id matches no row is a 404
    right after the lookup: the store is unchanged and nothing is
    downloaded, OCRed or written. *)
Theorem missing_id_and_not_found (E : env) (trg : trigger) (s : state) :
  (truthy (t_contract_id trg) = false ->
   process_contract E trg s = (s, RMissingId) /\ http_status RMissingId = 400) /\
  (truthy (t_contract_id trg) = true ->
   truthy (t_upload_status trg) && ne_processing (t_upload_status trg) = false ->
   lookup_raises E = false ->
   filter (matches_id (t_contract_id trg)) (st_store s) = [] ->
   process_contract E trg s =
     (mkState (st_store s) (st_trace s ++ [Lookup (t_contract_id trg)])%list,
      RNotFound (t_contract_id trg)) /\
   http_status (RNotFound (t_contract_id trg)) = 404).
Proof.
  split.
  - intros Hid. split; [|reflexivity].
    unfold process_contract, process_body. cbv zeta. rewrite Hid. reflexivity.
  - intros Hid Hh Hl Hf. split; [|reflexivity].
    rewrite (process_gate E trg s Hid Hh). cbv zeta. rewrite Hl, Hf. reflexivity.
Qed.

Lemma missing_id_and_not_found_witness :
  (truthy VNone = false /\
   process_contract sample_env (mkTrigger VNone VNone) sample_state = (sample_state, RMissingId)) /\
  (truthy (VStr "nope") = true /\
   truthy (VStr "processing") && ne_processing (VStr "processing") = false /\
   lookup_raises sample_env = false /\
   filter (matches_id (VStr "nope")) [sample_contract] = [] /\
   process_contract sample_env (mkTrigger (VStr "nope") (VStr "processing")) sample_state =
     (mkState [sample_contract] [Lookup (VStr "nope")], RNotFound (VStr "nope"))).
Proof.
  destruct (missing_id_and_not_found sample_env (mkTrigger VNone VNone) sample_state)
    as [H1 _].
  destruct (missing_id_and_not_found sample_env (mkTrigger (VStr "nope") (VStr "processing"))
              sample_state) as [_ H2].
  split.
  - split; [reflexivity|]. exact (proj1 (H1 eq_refl)).
  - split; [reflexivity|]. split; [reflexivity|]. split; [reflexivity|].
    split; [reflexivity|]. exact (proj1 (H2 eq_refl eq_refl eq_refl eq_refl)).
Defined.

(** The only change [process_contract] makes to the store is the success
    update of the rows with the trigger's id. *)
Lemma process_store_cases (E : env) (trg : trigger) (s : state) :
  st_store (fst (process_contract E trg s)) = st_store s \/
  exists raw, st_store (fst (process_contract E trg s)) =
              map (apply_update (t_contract_id trg) raw (now E)) (st_store s).
Proof.
  destruct (truthy (t_contract_id trg)) eqn:Hid.
  2:{ left. unfold process_contract, process_body. cbv zeta. now rewrite Hid. }
  destruct (truthy (t_upload_status trg) && ne_processing (t_upload_status trg)) eqn:Hh.
  { left. unfold process_contract, process_body. cbv zeta. now rewrite Hid, Hh. }
  rewrite (process_gate E trg s Hid Hh). cbv zeta.
  destruct (lookup_raises E); [now left|].
  destruct (filter _ (st_store s)) as [|c rest]; [now left|].
  destruct (ne_processing (upload_status c)); [now left|].
  destruct (negb (truthy (storage_path c))); [now left|].
  pose proof (extract_text_spec E (storage_path c)
                (mkState (st_store s) (st_trace s ++ [Lookup (t_contract_id trg)])%list)) as H.
  destruct (extract_text_from_pdf E (storage_path c) _) as [s2 [raw|e]].
  all: destruct H as (Hst2 & _); cbn [st_store] in Hst2.
  - destruct (update_raises E); cbn [fst st_store].
    + left. exact Hst2.
    + right. exists raw. now rewrite Hst2.
  - left. exact Hst2.
Qed.

(** C9: from a table whose rows all satisfy "[raw_text] is non-null iff
    [upload_status] is completed or failed", every run of the handler
    leaves a table whose rows all satisfy it. *)
Theorem raw_text_invariant (E : env) (trg : trigger) (s : state) :
  Forall raw_text_inv (st_store s) ->
  Forall raw_text_inv (st_store (fst (process_contract E trg s))).
Proof.
  intros Hinv.
  destruct (process_store_cases E trg s) as [-> | (raw & ->)]; [exact Hinv|].
  apply Forall_map. eapply Forall_impl; [|exact Hinv].
  intros c Hc. unfold apply_update.
  destruct (matches_id (t_contract_id trg) c); [|exact Hc].
  unfold raw_text_inv; cbn [raw_text upload_status]. split.
  - intros _. now left.
  - intros _. discriminate.
Qed.

Lemma raw_text_invariant_witness :
  Forall raw_text_inv (st_store sample_state) /\
  Forall raw_text_inv
    (st_store (fst (process_contract sample_env (mkTrigger (VStr "c1") VNone) sample_state))).
Proof.
  assert (H : Forall raw_text_inv (st_store sample_state)).
  { constructor; [|constructor]. unfold raw_text_inv; cbn. split.
    - intros Hc; exfalso; apply Hc; reflexivity.
    - intros [Hc|Hc]; discriminate. }
  split; [exact H|].
  exact (raw_text_invariant sample_env (mkTrigger (VStr "c1") VNone) sample_state H).
Defined.

(** C10: an empty-string hint is treated as absent: the run performs the
    same lookup, downloads and writes, with the same resulting state, as
    with no hint, and is never a hint skip. *)
Theorem empty_hint_ignored (E : env) (cid : pyval) (s : state) :
  truthy cid = true ->
  let '(s1, r1) := process_contract E (mkTrigger cid (VStr "")) s in
  let '(s2, r2) := process_contract E (mkTrigger cid VNone) s in
  s1 = s2 /\ r1 <> RSkipWebhook (VStr "") /\
  exists new, st_trace s1 = (st_trace s ++ Lookup cid :: new)%list.
Proof.
  intros Hid.
  rewrite (process_gate E (mkTrigger cid (VStr "")) s Hid eq_refl).
  rewrite (process_gate E (mkTrigger cid VNone) s Hid eq_refl).
  cbv zeta; cbn [t_contract_id t_upload_status].
  destruct (lookup_raises E).
  { split; [reflexivity|]. split; [discriminate|]. exists []. reflexivity. }
  destruct (filter (matches_id cid) (st_store s)) as [|c rest].
  { split; [reflexivity|]. split; [discriminate|]. exists []. reflexivity. }
  destruct (ne_processing (upload_status c)).
  { split; [reflexivity|]. split; [discriminate|]. exists []. reflexivity. }
  destruct (negb (truthy (storage_path c))).
  { split; [reflexivity|]. split; [discriminate|]. exists []. reflexivity. }
  pose proof (extract_text_spec E (storage_path c)
                (mkState (st_store s) (st_trace s ++ [Lookup cid])%list)) as H.
  destruct (extract_text_from_pdf E (storage_path c) _) as [s2 r].
  destruct H as (_ & new & Htr & _). cbn [st_trace] in Htr.
  assert (Htr' : st_trace s2 = (st_trace s ++ Lookup cid :: Download (storage_path c) :: new)%list)
    by (rewrite Htr, <- List.app_assoc; reflexivity).
  destruct r as [raw|e].
  - destruct (update_raises E); cbn [st_trace].
    all: split; [reflexivity|]; split; [discriminate|].
    all: exists ((Download (storage_path c) :: new) ++ [Write cid])%list;
         rewrite Htr'; rewrite <- List.app_assoc; reflexivity.
  - split; [reflexivity|]. split; [discriminate|].
    exists (Download (storage_path c) :: new). exact Htr'.
Qed.

Lemma empty_hint_ignored_witness :
  truthy (VStr "c1") = true /\
  (let '(s1, r1) := process_contract sample_env (mkTrigger (VStr "c1") (VStr "")) sample_state in
   let '(s2, r2) := process_contract sample_env (mkTrigger (VStr "c1") VNone) sample_state in
   s1 = s2 /\ r1 <> RSkipWebhook (VStr "") /\
   exists new, st_trace s1 = (st_trace sample_state ++ Lookup (VStr "c1") :: new)%list).
Proof.
  split; [reflexivity|].
  exact (empty_hint_ignored sample_env (VStr "c1") sample_state eq_refl).
Defined.

(** * Further properties of the handler *)

(** ** Reading the payload *)

(** A JSON object with a truthy [contract_id] decides both the id and the
    hint; form data and query parameters are then ignored. *)
Theorem json_id_takes_precedence (rq : request) (kv : list (string * pyval)) :
  rq_json rq = Some (JDict kv) ->
  truthy (dict_get kv "contract_id") = true ->
  read_trigger rq = Ok (mkTrigger (dict_get kv "contract_id") (dict_get kv "upload_status")).
Proof.
  intros Hj Ht. unfold read_trigger, json_fields. rewrite Hj.
  destruct kv as [|kv0 kvs]; [discriminate|].
  unfold fallback_fields. cbn [fst].
  destruct (rq_form rq), (rq_args rq); cbn [fst]; rewrite ?Ht; cbn [negb fst];
    rewrite ?Ht; reflexivity.
Qed.

Lemma json_id_takes_precedence_witness :
  let kv := [("contract_id", VStr "c1"); ("upload_status", VStr "processing")] in
  let rq := mkRequest (Some (JDict kv)) [("contract_id", "other")] [("upload_status", "completed")] in
  (rq_json rq = Some (JDict kv) /\ truthy (dict_get kv "contract_id") = true) /\
  read_trigger rq = Ok (mkTrigger (VStr "c1") (VStr "processing")).
Proof.
  cbv zeta. split; [split; reflexivity|].
  exact (json_id_takes_precedence
           (mkRequest (Some (JDict [("contract_id", VStr "c1"); ("upload_status", VStr "processing")]))
              [("contract_id", "other")] [("upload_status", "completed")])
           _ eq_refl eq_refl).
Defined.

(** If the JSON body is absent, a falsy JSON value, or an object without a
    truthy [contract_id], and neither the form nor the query string carries
    a truthy [contract_id], the request is answered 400 and nothing
    happens.  (A truthy JSON body that is not an object is a 500 instead.) *)
Theorem no_id_anywhere_rejected (E : env) (rq : request) (s : state) :
  (rq_json rq = None \/ rq_json rq = Some (JOther false) \/
   exists kv, rq_json rq = Some (JDict kv) /\ truthy (dict_get kv "contract_id") = false) ->
  (rq_form rq = [] \/ truthy (sdict_get (rq_form rq) "contract_id") = false) ->
  (rq_args rq = [] \/ truthy (sdict_get (rq_args rq) "contract_id") = false) ->
  handle_post E rq s = (s, RMissingId).
Proof.
  intros Hjson Hform Hargs.
  assert (Hj : exists cur, json_fields (rq_json rq) = Ok cur /\ truthy (fst cur) = false).
  { destruct Hjson as [Hj|[Hj|(kv & Hj & Hk)]]; rewrite Hj.
    - exists (VNone, VNone). split; reflexivity.
    - exists (VNone, VNone). split; reflexivity.
    - destruct kv as [|kv0 kvs].
      + exists (VNone, VNone). split; reflexivity.
      + eexists. split; [reflexivity|exact Hk]. }
  destruct Hj as (cur & Hj & Hf).
  unfold handle_post, read_trigger. rewrite Hj.
  assert (H1 : truthy (fst (fallback_fields (rq_form rq) cur)) = false).
  { unfold fallback_fields. destruct (rq_form rq) as [|f fs]; [exact Hf|].
    rewrite Hf. cbn. destruct Hform as [Hc|Hc]; [discriminate|exact Hc]. }
  assert (H2 : truthy (fst (fallback_fields (rq_args rq) (fallback_fields (rq_form rq) cur))) = false).
  { unfold fallback_fields at 1. destruct (rq_args rq) as [|a as_]; [exact H1|].
    rewrite H1. cbn. destruct Hargs as [Hc|Hc]; [discriminate|exact Hc]. }
  destruct (fallback_fields (rq_args rq) (fallback_fields (rq_form rq) cur)) as [cid h].
  cbn [fst] in H2. unfold process_contract, process_body. cbv zeta. cbn [t_contract_id].
  rewrite H2. reflexivity.
Qed.

Lemma no_id_anywhere_rejected_witness :
  let rq := mkRequest (Some (JDict [("upload_status", VStr "processing")])) [] [("page", "1")] in
  ((rq_json rq = None \/ rq_json rq = Some (JOther false) \/
    exists kv, rq_json rq = Some (JDict kv) /\ truthy (dict_get kv "contract_id") = false) /\
   (rq_form rq = [] \/ truthy (sdict_get (rq_form rq) "contract_id") = false) /\
   (rq_args rq = [] \/ truthy (sdict_get (rq_args rq) "contract_id") = false)) /\
  handle_post sample_env rq sample_state = (sample_state, RMissingId).
Proof.
  cbv zeta.
  assert (Hj : exists kv, Some (JDict [("upload_status", VStr "processing")]) = Some (JDict kv) /\
                          truthy (dict_get kv "contract_id") = false)
    by (eexists; split; reflexivity).
  split; [split; [right; right; exact Hj|split; [left; reflexivity|right; reflexivity]]|].
  exact (no_id_anywhere_rejected sample_env
           (mkRequest (Some (JDict [("upload_status", VStr "processing")])) [] [("page", "1")])
           sample_state (or_intror (or_intror Hj)) (or_introl eq_refl) (or_intror eq_refl)).
Defined.

(** A JSON body that does not parse, or that is a truthy non-object (an
    array, a string, a non-zero number), makes the request fail with a 500
    before any lookup, whatever the form and query carry. *)
Theorem bad_json_body_fails (E : env) (rq : request) (s : state) :
  rq_json rq = Some JInvalid \/ rq_json rq = Some (JOther true) ->
  exists msg, handle_post E rq s = (s, RError msg).
Proof.
  intros [Hj|Hj]; unfold handle_post, read_trigger, json_fields; rewrite Hj; eexists; reflexivity.
Qed.

Lemma bad_json_body_fails_witness :
  (rq_json (mkRequest (Some (JOther true)) [("contract_id", "c1")] []) = Some JInvalid \/
   rq_json (mkRequest (Some (JOther true)) [("contract_id", "c1")] []) = Some (JOther true)) /\
  exists msg, handle_post sample_env (mkRequest (Some (JOther true)) [("contract_id", "c1")] [])
                sample_state = (sample_state, RError msg).
Proof.
  split; [right; reflexivity|].
  exact (bad_json_body_fails sample_env (mkRequest (Some (JOther true)) [("contract_id", "c1")] [])
           sample_state (or_intror eq_refl)).
Defined.

(** ** Admitted runs *)

Lemma ne_processing_false (v : pyval) : ne_processing v = false -> v = VStr "processing".
Proof.
  destruct v as [| | |str]; try discriminate. cbn.
  destruct (String.eqb_spec str "processing"); [now intros; subst|discriminate].
Qed.

(** A contract in "processing" with a falsy [storage_path] is answered 400
    after the lookup: nothing is downloaded and the store is unchanged. *)
Theorem missing_storage_path_rejected (E : env) (trg : trigger) (s : state)
    (c : contract) (rest : list contract) :
  truthy (t_contract_id trg) = true ->
  truthy (t_upload_status trg) && ne_processing (t_upload_status trg) = false ->
  lookup_raises E = false ->
  filter (matches_id (t_contract_id trg)) (st_store s) = c :: rest ->
  ne_processing (upload_status c) = false ->
  truthy (storage_path c) = false ->
  process_contract E trg s =
    (mkState (st_store s) (st_trace s ++ [Lookup (t_contract_id trg)])%list,
     RNoStoragePath (t_contract_id trg)) /\
  http_status (RNoStoragePath (t_contract_id trg)) = 400.
Proof.
  intros Hid Hh Hl Hc Hst Hsp. split; [|reflexivity].
  rewrite (process_gate E trg s Hid Hh). cbv zeta. rewrite Hl, Hc, Hst, Hsp. reflexivity.
Qed.

Lemma missing_storage_path_rejected_witness :
  let c := mkContract (VStr "c1") VNone (VStr "processing") None None in
  (truthy (VStr "c1") = true /\ truthy VNone && ne_processing VNone = false /\
   lookup_raises sample_env = false /\
   filter (matches_id (VStr "c1")) [c] = [c] /\
   ne_processing (upload_status c) = false /\ truthy (storage_path c) = false) /\
  process_contract sample_env (mkTrigger (VStr "c1") VNone) (mkState [c] []) =
    (mkState [c] ([] ++ [Lookup (VStr "c1")])%list, RNoStoragePath (VStr "c1")) /\
  http_status (RNoStoragePath (VStr "c1")) = 400.
Proof.
  cbv zeta. split; [repeat split; reflexivity|].
  exact (missing_storage_path_rejected sample_env (mkTrigger (VStr "c1") VNone)
           (mkState [mkContract (VStr "c1") VNone (VStr "processing") None None] [])
           _ [] eq_refl eq_refl eq_refl eq_refl eq_refl eq_refl).
Defined.

(** The run past all checks: after the lookup and the extraction, the
    handler either answers with the update error or applies the update. *)
Lemma admitted_run (E : env) (trg : trigger) (s : state) (c : contract)
    (rest : list contract) (text : string) :
  truthy (t_contract_id trg) = true ->
  truthy (t_upload_status trg) && ne_processing (t_upload_status trg) = false ->
  lookup_raises E = false ->
  filter (matches_id (t_contract_id trg)) (st_store s) = c :: rest ->
  ne_processing (upload_status c) = false ->
  truthy (storage_path c) = true ->
  extract_result E (storage_path c) = Ok text ->
  exists new,
  (forall e, In e new -> exists i, e = OcrCall i 1) /\
  let tr := (st_trace s ++ Lookup (t_contract_id trg) :: Download (storage_path c) :: new
             ++ [Write (t_contract_id trg)])%list in
  process_contract E trg s =
    if update_raises E then (mkState (st_store s) tr, RError "store update failed")
    else (mkState (map (apply_update (t_contract_id trg) text (now E)) (st_store s)) tr,
          RSuccess (t_contract_id trg) (py_len text) (t_upload_status trg)
                   (VStr "processing")).
Proof.
  intros Hid Hh Hl Hc Hst Hsp Hx.
  rewrite (process_gate E trg s Hid Hh). cbv zeta. rewrite Hl, Hc, Hst, Hsp. cbn [negb].
  rewrite (ne_processing_false _ Hst).
  pose proof (extract_text_spec E (storage_path c)
                (mkState (st_store s) (st_trace s ++ [Lookup (t_contract_id trg)])%list)) as H.
  destruct (extract_text_from_pdf E (storage_path c) _) as [s2 r].
  destruct H as (Hst2 & new & Htr & Hev & _ & Hr & _).
  rewrite Hr, Hx. cbn [st_store st_trace] in Hst2, Htr.
  exists new. split.
  - intros e Hin. destruct (Hev e Hin) as (i & _ & -> & _). now exists i.
  - rewrite Hst2, Htr. rewrite <- !List.app_assoc. cbn [app].
    reflexivity.
Qed.

(** A successful run rewrites exactly the rows carrying the contract's id:
    each gets the extracted text, status "completed" and the timestamp,
    keeping its id and storage path; the other rows are untouched.  The
    reported [text_length] is the length, in characters, of the text written. *)
Theorem success_write (E : env) (trg : trigger) (s : state) (c : contract)
    (rest : list contract) (text : string) :
  truthy (t_contract_id trg) = true ->
  truthy (t_upload_status trg) && ne_processing (t_upload_status trg) = false ->
  lookup_raises E = false ->
  filter (matches_id (t_contract_id trg)) (st_store s) = c :: rest ->
  ne_processing (upload_status c) = false ->
  truthy (storage_path c) = true ->
  extract_result E (storage_path c) = Ok text ->
  update_raises E = false ->
  let '(s', r) := process_contract E trg s in
  r = RSuccess (t_contract_id trg) (py_len text) (t_upload_status trg) (VStr "processing") /\
  Forall2 (fun old row =>
     if pyval_eq_dec (c_id old) (t_contract_id trg)
     then row = mkContract (c_id old) (storage_path old) (VStr "completed")
                           (Some text) (Some (now E))
     else row = old) (st_store s) (st_store s').
Proof.
  intros Hid Hh Hl Hc Hst Hsp Hx Hu.
  destruct (admitted_run E trg s c rest text Hid Hh Hl Hc Hst Hsp Hx) as (new & _ & Hrun).
  rewrite Hrun, Hu. split; [reflexivity|]. cbn [st_store].
  generalize (st_store s) as db. intros db.
  induction db as [|row db IH]; cbn [map]; constructor; [|exact IH].
  unfold apply_update, matches_id. destruct (pyval_eq_dec (c_id row) (t_contract_id trg)); reflexivity.
Qed.

Lemma success_write_witness :
  (truthy (VStr "c1") = true /\ truthy VNone && ne_processing VNone = false /\
   lookup_raises sample_env = false /\
   filter (matches_id (VStr "c1")) [sample_contract] = [sample_contract] /\
   ne_processing (upload_status sample_contract) = false /\
   truthy (storage_path sample_contract) = true /\
   extract_result sample_env sample_url =
     Ok (page_header 0 ++ sample_long ++ ocr_header 1 ++ "Signed by both parties"
         ++ page_header 2 ++ sample_long) /\
   update_raises sample_env = false) /\
  let text := page_header 0 ++ sample_long ++ ocr_header 1 ++ "Signed by both parties"
         ++ page_header 2 ++ sample_long in
  let '(s', r) := process_contract sample_env (mkTrigger (VStr "c1") VNone) sample_state in
  r = RSuccess (VStr "c1") (py_len text) VNone (VStr "processing") /\
  Forall2 (fun old row =>
     if pyval_eq_dec (c_id old) (VStr "c1")
     then row = mkContract (c_id old) (storage_path old) (VStr "completed")
                           (Some text) (Some (now sample_env))
     else row = old) [sample_contract] (st_store s').
Proof.
  split; [repeat split; vm_compute; reflexivity|].
  exact (success_write sample_env (mkTrigger (VStr "c1") VNone) sample_state sample_contract []
           _ eq_refl eq_refl eq_refl eq_refl eq_refl eq_refl
           ltac:(vm_compute; reflexivity) eq_refl).
Defined.

(** If the final update raises, the write was attempted (it is the last
    effect) but the store is unchanged and the answer is a 500. *)
Theorem update_failure_keeps_store (E : env) (trg : trigger) (s : state) (c : contract)
    (rest : list contract) (text : string) :
  truthy (t_contract_id trg) = true ->
  truthy (t_upload_status trg) && ne_processing (t_upload_status trg) = false ->
  lookup_raises E = false ->
  filter (matches_id (t_contract_id trg)) (st_store s) = c :: rest ->
  ne_processing (upload_status c) = false ->
  truthy (storage_path c) = true ->
  extract_result E (storage_path c) = Ok text ->
  update_raises E = true ->
  let '(s', r) := process_contract E trg s in
  r = RError "store update failed" /\ st_store s' = st_store s /\
  exists pre, st_trace s' = (pre ++ [Write (t_contract_id trg)])%list.
Proof.
  intros Hid Hh Hl Hc Hst Hsp Hx Hu.
  destruct (admitted_run E trg s c rest text Hid Hh Hl Hc Hst Hsp Hx) as (new & _ & Hrun).
  rewrite Hrun, Hu. split; [reflexivity|]. split; [reflexivity|]. cbn [st_trace].
  exists (st_trace s ++ Lookup (t_contract_id trg) :: Download (storage_path c) :: new)%list.
  rewrite <- List.app_assoc. reflexivity.
Qed.

Lemma update_failure_keeps_store_witness :
  let E := mkEnv (fetch sample_env) (ocr sample_env) "T" false true in
  (truthy (VStr "c1") = true /\ truthy VNone && ne_processing VNone = false /\
   lookup_raises E = false /\
   filter (matches_id (VStr "c1")) [sample_contract] = [sample_contract] /\
   ne_processing (upload_status sample_contract) = false /\
   truthy (storage_path sample_contract) = true /\
   extract_result E sample_url =
     Ok (page_header 0 ++ sample_long ++ ocr_header 1 ++ "Signed by both parties"
         ++ page_header 2 ++ sample_long) /\
   update_raises E = true) /\
  let '(s', r) := process_contract E (mkTrigger (VStr "c1") VNone) sample_state in
  r = RError "store update failed" /\ st_store s' = [sample_contract] /\
  exists pre, st_trace s' = (pre ++ [Write (VStr "c1")])%list.
Proof.
  cbv zeta. split; [repeat split; vm_compute; reflexivity|].
  exact (update_failure_keeps_store (mkEnv (fetch sample_env) (ocr sample_env) "T" false true)
           (mkTrigger (VStr "c1") VNone) sample_state sample_contract [] _
           eq_refl eq_refl eq_refl eq_refl eq_refl eq_refl
           ltac:(vm_compute; reflexivity) eq_refl).
Defined.

(** If the lookup itself raises, the answer is a 500 and only the lookup
    was attempted. *)
Theorem lookup_failure (E : env) (trg : trigger) (s : state) :
  truthy (t_contract_id trg) = true ->
  truthy (t_upload_status trg) && ne_processing (t_upload_status trg) = false ->
  lookup_raises E = true ->
  process_contract E trg s =
    (mkState (st_store s) (st_trace s ++ [Lookup (t_contract_id trg)])%list,
     RError "store lookup failed").
Proof.
  intros Hid Hh Hl. rewrite (process_gate E trg s Hid Hh). cbv zeta. now rewrite Hl.
Qed.

Lemma lookup_failure_witness :
  let E := mkEnv (fetch sample_env) (ocr sample_env) "T" true false in
  (truthy (VStr "c1") = true /\ truthy VNone && ne_processing VNone = false /\
   lookup_raises E = true) /\
  process_contract E (mkTrigger (VStr "c1") VNone) sample_state =
    (mkState [sample_contract] ([] ++ [Lookup (VStr "c1")])%list, RError "store lookup failed").
Proof.
  cbv zeta. split; [repeat split|].
  exact (lookup_failure (mkEnv (fetch sample_env) (ocr sample_env) "T" true false)
           (mkTrigger (VStr "c1") VNone) sample_state eq_refl eq_refl eq_refl).
Defined.

Lemma matches_id_apply_update (cid : pyval) (text ts : string) (c : contract) :
  matches_id cid (apply_update cid text ts c) = matches_id cid c.
Proof.
  unfold apply_update. destruct (matches_id cid c) eqn:Hm; [|exact Hm].
  unfold matches_id in *. cbn [c_id]. exact Hm.
Qed.

Lemma filter_map_update (cid : pyval) (text ts : string) (db : list contract) :
  filter (matches_id cid) (map (apply_update cid text ts) db) =
  map (apply_update cid text ts) (filter (matches_id cid) db).
Proof.
  induction db as [|c db IH]; [reflexivity|]. cbn [map filter].
  rewrite matches_id_apply_update. destruct (matches_id cid c); cbn [map]; now rewrite IH.
Qed.

(** A repeated delivery of the same trigger after a successful run is
    skipped on the stored status, now "completed": no second download,
    extraction or write. *)
Theorem rerun_after_success_skipped (E : env) (trg : trigger) (s : state) (c : contract)
    (rest : list contract) (text : string) :
  truthy (t_contract_id trg) = true ->
  truthy (t_upload_status trg) && ne_processing (t_upload_status trg) = false ->
  lookup_raises E = false ->
  filter (matches_id (t_contract_id trg)) (st_store s) = c :: rest ->
  ne_processing (upload_status c) = false ->
  truthy (storage_path c) = true ->
  extract_result E (storage_path c) = Ok text ->
  update_raises E = false ->
  let s' := fst (process_contract E trg s) in
  process_contract E trg s' =
    (mkState (st_store s') (st_trace s' ++ [Lookup (t_contract_id trg)])%list,
     RSkipDatabase (t_upload_status trg) (VStr "completed")).
Proof.
  intros Hid Hh Hl Hc Hst Hsp Hx Hu.
  destruct (admitted_run E trg s c rest text Hid Hh Hl Hc Hst Hsp Hx) as (new & _ & Hrun).
  cbv zeta. rewrite Hrun, Hu. cbn [fst].
  rewrite (process_gate E trg _ Hid Hh). cbv zeta. rewrite Hl. cbn [st_store st_trace].
  rewrite filter_map_update, Hc. cbn [map].
  assert (Hm : matches_id (t_contract_id trg) c = true).
  { assert (In c (filter (matches_id (t_contract_id trg)) (st_store s))) as Hin
      by (rewrite Hc; left; reflexivity).
    apply filter_In in Hin. exact (proj2 Hin). }
  assert (Hup : apply_update (t_contract_id trg) text (now E) c =
                mkContract (c_id c) (storage_path c) (VStr "completed") (Some text) (Some (now E)))
    by (unfold apply_update; now rewrite Hm).
  rewrite Hup. reflexivity.
Qed.

Lemma rerun_after_success_skipped_witness :
  (truthy (VStr "c1") = true /\ truthy VNone && ne_processing VNone = false /\
   lookup_raises sample_env = false /\
   filter (matches_id (VStr "c1")) [sample_contract] = [sample_contract] /\
   ne_processing (upload_status sample_contract) = false /\
   truthy (storage_path sample_contract) = true /\
   extract_result sample_env sample_url =
     Ok (page_header 0 ++ sample_long ++ ocr_header 1 ++ "Signed by both parties"
         ++ page_header 2 ++ sample_long) /\
   update_raises sample_env = false) /\
  let s' := fst (process_contract sample_env (mkTrigger (VStr "c1") VNone) sample_state) in
  process_contract sample_env (mkTrigger (VStr "c1") VNone) s' =
    (mkState (st_store s') (st_trace s' ++ [Lookup (VStr "c1")])%list,
     RSkipDatabase VNone (VStr "completed")).
Proof.
  split; [repeat split; vm_compute; reflexivity|].
  exact (rerun_after_success_skipped sample_env (mkTrigger (VStr "c1") VNone) sample_state
           sample_contract [] _ eq_refl eq_refl eq_refl eq_refl eq_refl eq_refl
           ltac:(vm_compute; reflexivity) eq_refl).
Defined.

(** ** What the hint can change, and when the store changes *)

(** Any two hints that do not cause a skip (absent, falsy, or exactly
    "processing") lead to the same effects and the same final state; the
    hint is only echoed in the response. *)
Theorem hint_only_gates (E : env) (cid h1 h2 : pyval) (s : state) :
  truthy cid = true ->
  truthy h1 && ne_processing h1 = false ->
  truthy h2 && ne_processing h2 = false ->
  fst (process_contract E (mkTrigger cid h1) s) = fst (process_contract E (mkTrigger cid h2) s).
Proof.
  intros Hid H1 H2.
  rewrite (process_gate E (mkTrigger cid h1) s Hid H1).
  rewrite (process_gate E (mkTrigger cid h2) s Hid H2).
  cbv zeta; cbn [t_contract_id t_upload_status].
  destruct (lookup_raises E); [reflexivity|].
  destruct (filter (matches_id cid) (st_store s)) as [|c rest]; [reflexivity|].
  destruct (ne_processing (upload_status c)); [reflexivity|].
  destruct (negb (truthy (storage_path c))); [reflexivity|].
  destruct (extract_text_from_pdf E (storage_path c) _) as [s2 [raw|e]]; [|reflexivity].
  destruct (update_raises E); reflexivity.
Qed.

Lemma hint_only_gates_witness :
  (truthy (VStr "c1") = true /\ truthy (VStr "processing") && ne_processing (VStr "processing") = false /\
   truthy (VBool false) && ne_processing (VBool false) = false) /\
  fst (process_contract sample_env (mkTrigger (VStr "c1") (VStr "processing")) sample_state) =
  fst (process_contract sample_env (mkTrigger (VStr "c1") (VBool false)) sample_state).
Proof.
  split; [repeat split|].
  exact (hint_only_gates sample_env (VStr "c1") (VStr "processing") (VBool false) sample_state
           eq_refl eq_refl eq_refl).
Defined.

Lemma process_store_unless_success (E : env) (trg : trigger) (s : state) :
  let '(s', r) := process_contract E trg s in
  (forall id n h d, r <> RSuccess id n h d) -> st_store s' = st_store s.
Proof.
  destruct (truthy (t_contract_id trg)) eqn:Hid.
  2:{ unfold process_contract, process_body. cbv zeta. now rewrite Hid. }
  destruct (truthy (t_upload_status trg) && ne_processing (t_upload_status trg)) eqn:Hh.
  { unfold process_contract, process_body. cbv zeta. now rewrite Hid, Hh. }
  rewrite (process_gate E trg s Hid Hh). cbv zeta.
  destruct (lookup_raises E); [now intros|].
  destruct (filter _ (st_store s)) as [|c rest]; [now intros|].
  destruct (ne_processing (upload_status c)); [now intros|].
  destruct (negb (truthy (storage_path c))); [now intros|].
  pose proof (extract_text_spec E (storage_path c)
                (mkState (st_store s) (st_trace s ++ [Lookup (t_contract_id trg)])%list)) as H.
  destruct (extract_text_from_pdf E (storage_path c) _) as [s2 [raw|e]].
  all: destruct H as (Hst2 & _); cbn [st_store] in Hst2.
  - destruct (update_raises E); cbn [st_store].
    + intros _. exact Hst2.
    + intros Hn. exfalso. eapply Hn. reflexivity.
  - intros _. exact Hst2.
Qed.

(** Whatever the request, the store is changed only by a run answered with
    the success response; every error and every skip leaves it as it was. *)
Theorem store_changes_only_on_success (E : env) (rq : request) (s : state) :
  let '(s', r) := handle_post E rq s in
  (forall id n h d, r <> RSuccess id n h d) -> st_store s' = st_store s.
Proof.
  unfold handle_post. destruct (read_trigger rq) as [trg|e]; [|now intros].
  apply process_store_unless_success.
Qed.

(** ** The extraction trace *)

Lemma extract_pages_ocr_trace (E : env) (pages : list string) :
  forall page_num text s s' out,
  extract_pages E pages page_num text s = (s', Ok out) ->
  st_trace s' = (st_trace s ++ map (fun i => OcrCall i 1) (scanned_indices page_num pages))%list.
Proof.
  induction pages as [|p rest IH]; intros page_num text s s' out H.
  - cbn in H. injection H as <- _. cbn. now rewrite app_nil_r.
  - unfold extract_pages in H; cbn [extract_pages_with] in H; fold (extract_pages E) in H.
    unfold bind at 1, resolve_page_with in H. cbn [scanned_indices].
    destruct (needs_ocr p).
    + unfold bind at 1, ocr_page, bind, emit in H. cbn [st_store st_trace] in H.
      destruct (ocr E page_num 1) as [t|]; cbn [ret raise] in H; [|discriminate].
      rewrite (IH _ _ _ _ _ H). cbn [st_trace map]. now rewrite <- List.app_assoc.
    + unfold ret at 1 in H. exact (IH _ _ _ _ _ H).
Qed.

(** A successful extraction calls OCR exactly once for each page whose
    stripped text is under 50 characters, in ascending page order, and for
    no other page; the download comes first. *)
Theorem ocr_calls_exactly_scanned (E : env) (url : pyval) (pages : list string)
    (s s' : state) (text : string) :
  fetch E url = Some pages ->
  extract_text_from_pdf E url s = (s', Ok text) ->
  st_trace s' = (st_trace s ++ Download url ::
                 map (fun i => OcrCall i 1) (scanned_indices 0 pages))%list.
Proof.
  intros Hf Hx. unfold extract_text_from_pdf, bind at 1, emit in Hx.
  cbn [st_store st_trace] in Hx. rewrite Hf in Hx.
  rewrite (extract_pages_ocr_trace E pages 0 "" _ s' text Hx). cbn [st_trace].
  now rewrite <- List.app_assoc.
Qed.

Lemma ocr_calls_exactly_scanned_witness :
  (fetch sample_env sample_url = Some sample_pages /\
   extract_text_from_pdf sample_env sample_url sample_state =
   (mkState [sample_contract] [Download sample_url; OcrCall 1 1],
    Ok (page_header 0 ++ sample_long ++ ocr_header 1 ++ "Signed by both parties"
        ++ page_header 2 ++ sample_long))) /\
  st_trace (mkState [sample_contract] [Download sample_url; OcrCall 1 1]) =
  (st_trace sample_state ++ Download sample_url ::
     map (fun i => OcrCall i 1) (scanned_indices 0 sample_pages))%list.
Proof.
  assert (Hx : extract_text_from_pdf sample_env sample_url sample_state =
   (mkState [sample_contract] [Download sample_url; OcrCall 1 1],
    Ok (page_header 0 ++ sample_long ++ ocr_header 1 ++ "Signed by both parties"
        ++ page_header 2 ++ sample_long))) by (vm_compute; reflexivity).
  split; [split; [reflexivity|exact Hx]|].
  exact (ocr_calls_exactly_scanned sample_env sample_url sample_pages sample_state _ _ eq_refl Hx).
Defined.

Lemma store_changes_only_on_success_witness :
  let rq := mkRequest (Some (JDict [("contract_id", VStr "c1"); ("upload_status", VStr "completed")])) [] [] in
  (forall id n h d, snd (handle_post sample_env rq sample_state) <> RSuccess id n h d) /\
  st_store (fst (handle_post sample_env rq sample_state)) = st_store sample_state.
Proof.
  cbv zeta.
  pose proof (store_changes_only_on_success sample_env
    (mkRequest (Some (JDict [("contract_id", VStr "c1"); ("upload_status", VStr "completed")])) [] [])
    sample_state) as H.
  change (handle_post sample_env
    (mkRequest (Some (JDict [("contract_id", VStr "c1"); ("upload_status", VStr "completed")])) [] [])
    sample_state) with (sample_state, RSkipWebhook (VStr "completed")) in *.
  cbn [fst snd] in *. split; [intros; discriminate|]. apply H. intros; discriminate.
Defined.

(** An admitted contract whose PDF has no pages is completed with an empty
    [raw_text]: no OCR happens and the reported length is 0. *)
Theorem empty_document_completed (E : env) (trg : trigger) (s : state) (c : contract)
    (rest : list contract) :
  truthy (t_contract_id trg) = true ->
  truthy (t_upload_status trg) && ne_processing (t_upload_status trg) = false ->
  lookup_raises E = false ->
  filter (matches_id (t_contract_id trg)) (st_store s) = c :: rest ->
  ne_processing (upload_status c) = false ->
  truthy (storage_path c) = true ->
  fetch E (storage_path c) = Some [] ->
  update_raises E = false ->
  process_contract E trg s =
    (mkState (map (apply_update (t_contract_id trg) "" (now E)) (st_store s))
             (st_trace s ++ [Lookup (t_contract_id trg); Download (storage_path c);
                             Write (t_contract_id trg)])%list,
     RSuccess (t_contract_id trg) 0 (t_upload_status trg) (VStr "processing")).
Proof.
  intros Hid Hh Hl Hc Hst Hsp Hf Hu.
  rewrite (process_gate E trg s Hid Hh). cbv zeta. rewrite Hl, Hc, Hst, Hsp. cbn [negb].
  rewrite (ne_processing_false _ Hst).
  unfold extract_text_from_pdf, bind at 1, emit. cbn [st_store st_trace]. rewrite Hf.
  unfold extract_pages. cbn [extract_pages_with ret]. rewrite Hu. cbn [st_store st_trace].
  rewrite <- !List.app_assoc. reflexivity.
Qed.

Lemma empty_document_completed_witness :
  let E := mkEnv (fun _ => Some []) (fun _ _ => None) "T" false false in
  (truthy (VStr "c1") = true /\ truthy VNone && ne_processing VNone = false /\
   lookup_raises E = false /\
   filter (matches_id (VStr "c1")) [sample_contract] = [sample_contract] /\
   ne_processing (upload_status sample_contract) = false /\
   truthy (storage_path sample_contract) = true /\
   fetch E sample_url = Some [] /\ update_raises E = false) /\
  process_contract E (mkTrigger (VStr "c1") VNone) sample_state =
    (mkState (map (apply_update (VStr "c1") "" "T") [sample_contract])
             ([] ++ [Lookup (VStr "c1"); Download sample_url; Write (VStr "c1")])%list,
     RSuccess (VStr "c1") 0 VNone (VStr "processing")).
Proof.
  cbv zeta. split; [repeat split; vm_compute; reflexivity|].
  exact (empty_document_completed (mkEnv (fun _ => Some []) (fun _ _ => None) "T" false false)
           (mkTrigger (VStr "c1") VNone) sample_state sample_contract []
           eq_refl eq_refl eq_refl eq_refl eq_refl eq_refl eq_refl eq_refl).
Defined.

(** ** [str.strip()] and the OCR decision *)

Lemma lstrip_space_prefix (w p : list N) :
  forallb py_isspace w = true -> lstrip (w ++ p)%list = lstrip p.
Proof.
  induction w as [|c w IH]; cbn; [reflexivity|].
  intros H. apply andb_prop in H as [Hc Hw]. rewrite Hc. exact (IH Hw).
Qed.

Lemma lstrip_all_space (w : list N) : forallb py_isspace w = true -> lstrip w = [].
Proof. intros H. rewrite <- (app_nil_r w). now rewrite (lstrip_space_prefix w [] H). Qed.

Lemma lstrip_app (p w : list N) :
  lstrip (p ++ w)%list = match lstrip p with [] => lstrip w | _ => (lstrip p ++ w)%list end.
Proof.
  induction p as [|c p IH]; cbn; [reflexivity|].
  destruct (py_isspace c); [exact IH|]. reflexivity.
Qed.

Lemma forallb_rev {A} (f : A -> bool) (l : list A) : forallb f (rev l) = forallb f l.
Proof.
  induction l as [|x l IH]; [reflexivity|]. cbn [rev].
  rewrite forallb_app, IH. cbn. now rewrite andb_true_r, andb_comm.
Qed.

Lemma rstrip_space_suffix (x w : list N) :
  forallb py_isspace w = true -> rstrip (x ++ w)%list = rstrip x.
Proof.
  intros Hw. unfold rstrip. rewrite rev_app_distr, lstrip_space_prefix; [reflexivity|].
  now rewrite forallb_rev.
Qed.

Lemma strip_padding (ws1 l ws2 : list N) :
  forallb py_isspace ws1 = true -> forallb py_isspace ws2 = true ->
  strip (ws1 ++ l ++ ws2)%list = strip l.
Proof.
  intros H1 H2. unfold strip. rewrite lstrip_space_prefix by exact H1. rewrite lstrip_app.
  destruct (lstrip l) as [|c r] eqn:He.
  - rewrite (lstrip_all_space ws2 H2). reflexivity.
  - rewrite <- He. apply rstrip_space_suffix, H2.
Qed.

(** A page whose characters are those of [p] with whitespace characters
    (in Python's sense, Unicode included) before and after gets the same
    [strip()] result as [p], hence the same OCR decision. *)
Theorem strip_ignores_padding (p q : string) (ws1 ws2 : list N) :
  forallb py_isspace ws1 = true -> forallb py_isspace ws2 = true ->
  utf8_decode q = (ws1 ++ utf8_decode p ++ ws2)%list ->
  strip (utf8_decode q) = strip (utf8_decode p) /\ needs_ocr q = needs_ocr p.
Proof.
  intros H1 H2 Hq.
  assert (Hs : strip (utf8_decode q) = strip (utf8_decode p))
    by (rewrite Hq; exact (strip_padding ws1 (utf8_decode p) ws2 H1 H2)).
  split; [exact Hs|]. unfold needs_ocr. now rewrite Hs.
Qed.

Lemma strip_ignores_padding_witness :
  let q := nbsp ++ "  " ++ sample_long ++ nl ++ nbsp in
  (forallb py_isspace [160; 32; 32]%N = true /\ forallb py_isspace [10; 160]%N = true /\
   utf8_decode q = ([160; 32; 32]%N ++ utf8_decode sample_long ++ [10; 160]%N)%list) /\
  strip (utf8_decode q) = strip (utf8_decode sample_long) /\
  needs_ocr q = needs_ocr sample_long.
Proof.
  cbv zeta.
  assert (Hq : utf8_decode (nbsp ++ "  " ++ sample_long ++ nl ++ nbsp) =
               ([160; 32; 32]%N ++ utf8_decode sample_long ++ [10; 160]%N)%list)
    by (vm_compute; reflexivity).
  split; [split; [reflexivity|split; [reflexivity|exact Hq]]|].
  exact (strip_ignores_padding sample_long (nbsp ++ "  " ++ sample_long ++ nl ++ nbsp)
           [160; 32; 32]%N [10; 160]%N eq_refl eq_refl Hq).
Defined.

(** A page whose native text is only whitespace (Python's [str.isspace()],
    Unicode included) goes to OCR, however long it is. *)
Theorem blank_page_needs_ocr (p : string) : all_space p = true -> needs_ocr p = true.
Proof.
  intros H. unfold needs_ocr, strip, all_space in *.
  rewrite (lstrip_all_space (utf8_decode p) H). reflexivity.
Qed.

Lemma blank_page_needs_ocr_witness :
  let p := repeat_str 60 nbsp ++ nl in
  (String.length p = 121%nat /\ all_space p = true) /\ needs_ocr p = true.
Proof.
  cbv zeta. split; [split; vm_compute; reflexivity|].
  apply blank_page_needs_ocr. vm_compute. reflexivity.
Defined.
